(** * pretraining/run_language_modeling.py: the fine-tuning driver

    A shallow embedding of the driver script of the repository (argument
    groups, [get_dataset] and [main]) and the properties of its
    configuration checks, of the order and the arguments of its calls to
    its collaborators, and of the results it reports.

    The script is glue code: almost every statement of [main] is a call to
    a collaborator (the argument parser, the operating system, the
    transformers library, the dataset and collator modules of the
    repository).  Such calls are modelled as events: the answer comes from
    an explicit record of the collaborators' behaviour ([World]), the call
    and its answer are appended to a trace, and the state of the outside
    world is threaded through.  Python exceptions are the [Raise] results
    of an error monad over that state. *)

From Stdlib Require Import ZArith String Ascii List Bool Lia.
From Stdlib Require Import PrimFloat.
From stdpp Require Import base option list gmap strings sorting pretty.

Set Warnings "-inexact-float".

Open Scope string_scope.
Open Scope Z_scope.

(** ** Python exceptions and results *)

Inductive Exn :=
| ValueError (msg : string)
| OverflowError (msg : string)
| KeyError (key : string)
| SystemExit (code : Z)
| OtherError (cls msg : string).

Inductive result (A : Type) :=
| Ok (a : A)
| Raise (e : Exn).
Arguments Ok {A} a.
Arguments Raise {A} e.

Definition is_ok {A} (r : result A) : bool :=
  match r with Ok _ => true | Raise _ => false end.

(** ** The three argument groups (lines 47-112)

    [Optional[str]] fields are [option string]; [None] is Python's None. *)

Record ModelArguments := {
  model_name_or_path : option string;
  model_type : option string;
  config_name : option string;
  tokenizer_name : option string;
  cache_dir : option string
}.

Record DataTrainingArguments := {
  train_data_file : option string;
  eval_data_file : option string;
  line_by_line : bool;
  globalize_special_tokens : bool;
  mlm : bool;
  mlm_probability : float;
  block_size : Z;
  overwrite_cache : bool
}.

(** The fields of transformers' [TrainingArguments] that the script reads.
    The object itself is handed to the trainer as a whole. *)
Record TrainingArguments := {
  output_dir : string;
  do_train : bool;
  do_eval : bool;
  overwrite_output_dir : bool;
  local_rank : Z;
  device : string;
  n_gpu : Z;
  fp16 : bool;
  seed : Z
}.

(** The defaults of the dataclass fields. *)
Definition ModelArguments_default : ModelArguments := {|
  model_name_or_path := Some "/home/t-avic/PycharmProjects/coref_former/longformer-base-4096/";
  model_type := None;
  config_name := Some "/home/t-avic/PycharmProjects/coref_former/longformer-base-4096/";
  tokenizer_name := Some "RobertaTokenizer";
  cache_dir := Some "/home/t-avic/PycharmProjects/coref_former/finetuned"
|}.

Definition DataTrainingArguments_default : DataTrainingArguments := {|
  train_data_file := Some "train.txt.src";
  eval_data_file := None;
  line_by_line := false;
  globalize_special_tokens := false;
  mlm := true;
  mlm_probability := 0.15%float;
  block_size := -1;
  overwrite_cache := false
|}.

(** [data_args.block_size = v] (line 164): assignment to one attribute. *)
Definition set_block_size (v : Z) (a : DataTrainingArguments) : DataTrainingArguments := {|
  train_data_file := train_data_file a;
  eval_data_file := eval_data_file a;
  line_by_line := line_by_line a;
  globalize_special_tokens := globalize_special_tokens a;
  mlm := mlm a;
  mlm_probability := mlm_probability a;
  block_size := v;
  overwrite_cache := overwrite_cache a
|}.

(** ** The tokenizer and the model *)

(** Modelled from the spec: the tokenizer class ([LongformerTokenizer] of
    the transformers library) is not part of the sources.  The spec
    describes a vocabulary that maps each token to an id, whose size is
    what [len(tokenizer)] returns, and a mark for special tokens (entries
    excluded from ordinary subword splitting). *)
Record Tokenizer := {
  vocab : gmap string nat;
  special_tokens : gset string
}.

Definition len (t : Tokenizer) : nat := size (vocab t).

(** The tokens of [new_tokens] that get a new id, in order: those that are
    neither in the vocabulary nor already collected. *)
Fixpoint tokens_to_add (v : gmap string nat) (new_tokens acc : list string) : list string :=
  match new_tokens with
  | [] => acc
  | tok :: rest =>
      if decide (is_Some (v !! tok) ∨ tok ∈ acc) then tokens_to_add v rest acc
      else tokens_to_add v rest (acc ++ [tok])
  end.

(** The [i]-th token to add gets the id [n + i]. *)
Fixpoint assign_ids (n : nat) (toks : list string) (v : gmap string nat) : gmap string nat :=
  match toks with
  | [] => v
  | tok :: rest => assign_ids (S n) rest (<[tok := n]> v)
  end.

(** Modelled from the spec: [tokenizer.add_tokens(new_tokens,
    special_tokens=...)] of the transformers library, absent from the
    sources.  Registers the tokens into the vocabulary: a token that is
    already present keeps its id and gets no second one, a new token gets
    the next free id; with [special_tokens=True] the given tokens are
    marked special.  Returns the number of tokens added. *)
Definition add_tokens (new_tokens : list string) (special : bool) (t : Tokenizer)
  : nat * Tokenizer :=
  let to_add := tokens_to_add (vocab t) new_tokens [] in
  (length to_add,
   {| vocab := assign_ids (len t) to_add (vocab t);
      special_tokens := if special then special_tokens t ∪ list_to_set new_tokens
                        else special_tokens t |}).

(** No two tokens share an id, and the ids in use are below the size of the
    vocabulary: what a vocabulary read from a checkpoint satisfies. *)
Definition tokenizer_wf (t : Tokenizer) : Prop :=
  (∀ s1 s2 i, vocab t !! s1 = Some i → vocab t !! s2 = Some i → s1 = s2) ∧
  (∀ s i, vocab t !! s = Some i → (i < len t)%nat).

Definition Row := list float.

(** Modelled from the spec: the model class ([LongformerForMaskedLM] of the
    transformers library) is not part of the sources.  Of the model the
    script touches the token-embedding matrix, one row per vocabulary
    entry; the remaining weights are carried along. *)
Record LongformerForMaskedLM := {
  word_embeddings : list Row;
  config_vocab_size : nat;
  transformer_weights : list float
}.

(** Modelled from the spec: [model.resize_token_embeddings(n)] of the
    transformers library, absent from the sources.  The embedding matrix
    gets [n] rows: the existing rows are kept (as given, those with an index
    below [n]), and the new rows come from the model's initialisation
    policy [init_row]. *)
Definition resize_token_embeddings (init_row : nat → Row) (n : nat)
    (m : LongformerForMaskedLM) : LongformerForMaskedLM :=
  let old := word_embeddings m in
  {| word_embeddings := take n old ++ map init_row (seq (length old) (n - length old));
     config_vocab_size := n;
     transformer_weights := transformer_weights m |}.

(** ** The collaborators' objects

    The dataset and the collator are modules of the repository that are
    not in the sources ([pretraining.corpus_preprocessing],
    [pretraining.cdmlm_data_collector]); the trainer is the transformers
    library's.  An object is the record of its constructor's arguments
    (plus, for the dataset, the examples that the constructor read). *)

Record TextDataset := {
  ds_tokenizer : Tokenizer;
  ds_split : string;
  ds_file_path : option string;
  ds_block_size : Z;
  ds_local_rank : Z;
  ds_examples : list (list nat)
}.

Record DataCollatorForLanguageModeling := {
  dc_tokenizer : Tokenizer;
  dc_mlm : bool;
  dc_mlm_probability : float;
  dc_globalize_special_tokens : bool
}.

Record Trainer := {
  tr_model : LongformerForMaskedLM;
  tr_args : TrainingArguments;
  tr_data_collator : DataCollatorForLanguageModeling;
  tr_train_dataset : TextDataset;
  tr_prediction_loss_only : bool
}.

Inductive Level := INFO | WARN.

(** ** Events: the calls that leave the script, with their answers *)

Inductive Event :=
| EvParseArgs (r : result (ModelArguments * DataTrainingArguments * TrainingArguments))
| EvPathExists (path : string) (r : bool)
| EvListdir (path : string) (r : result (list string))
| EvPathIsdir (path : string) (r : bool)
| EvBasicConfig (level : Level)
| EvLog (level : Level) (fmt : string) (args : list string)
| EvSetSeed (s : Z)
| EvModelFromPretrained (id : string) (r : result LongformerForMaskedLM)
| EvTokenizerFromPretrained (id : string) (r : result Tokenizer)
| EvTextDataset (tokenizer : Tokenizer) (split : string) (file_path : option string)
    (block_size : Z) (local_rank : Z) (r : result (list (list nat)))
| EvResizeTokenEmbeddings (n : nat)
| EvDataCollator (c : DataCollatorForLanguageModeling) (r : result unit)
| EvTrainer (t : Trainer) (r : result unit)
| EvTrain (t : Trainer) (model_path : option string) (r : result unit)
| EvIsWorldMaster (r : bool)
| EvSavePretrained (tokenizer : Tokenizer) (dir : string) (r : result unit)
| EvEvaluate (t : Trainer) (r : result (gmap string float))
| EvOpen (path mode : string) (r : result unit)
| EvWrite (path data : string) (r : result unit)
| EvClose (path : string) (r : result unit).

(** Loading a checkpoint or a data file. *)
Definition is_load (e : Event) : bool :=
  match e with
  | EvModelFromPretrained _ _ | EvTokenizerFromPretrained _ _
  | EvTextDataset _ _ _ _ _ _ => true
  | _ => false
  end.

(** ** The world: what the collaborators answer

    [Env] is the state of everything outside the script (the file system,
    the command line, the random generators, the devices).  A query reads
    it, a call with effects also returns the next one. *)
Record World (Env : Type) := {
  parse_args_into_dataclasses :
    Env → result (ModelArguments * DataTrainingArguments * TrainingArguments);
  os_path_exists : Env → string → bool;
  os_listdir : Env → string → result (list string);
  os_path_isdir : Env → string → bool;
  set_seed : Env → Z → Env;
  Model_from_pretrained : Env → string → result LongformerForMaskedLM * Env;
  Tokenizer_from_pretrained : Env → string → result Tokenizer * Env;
  TextDataset_init :
    Env → Tokenizer → string → option string → Z → Z → result (list (list nat)) * Env;
  init_weights : Env → nat → Row;
  after_init_weights : Env → nat → Env;
  DataCollator_init : Env → DataCollatorForLanguageModeling → result unit * Env;
  Trainer_init : Env → Trainer → result unit * Env;
  Trainer_train : Env → Trainer → option string → result unit * Env;
  Trainer_is_world_master : Env → Trainer → bool;
  Tokenizer_save_pretrained : Env → Tokenizer → string → result unit * Env;
  Trainer_evaluate : Env → Trainer → result (gmap string float) * Env;
  os_open : Env → string → string → result unit * Env;
  file_write : Env → string → string → result unit * Env;
  file_close : Env → string → result unit * Env;
  libm_exp : float → float;
  str_float : float → string;
  repr_TrainingArguments : TrainingArguments → string
}.
Arguments parse_args_into_dataclasses {Env}.
Arguments os_path_exists {Env}.
Arguments os_listdir {Env}.
Arguments os_path_isdir {Env}.
Arguments set_seed {Env}.
Arguments Model_from_pretrained {Env}.
Arguments Tokenizer_from_pretrained {Env}.
Arguments TextDataset_init {Env}.
Arguments init_weights {Env}.
Arguments after_init_weights {Env}.
Arguments DataCollator_init {Env}.
Arguments Trainer_init {Env}.
Arguments Trainer_train {Env}.
Arguments Trainer_is_world_master {Env}.
Arguments Tokenizer_save_pretrained {Env}.
Arguments Trainer_evaluate {Env}.
Arguments os_open {Env}.
Arguments file_write {Env}.
Arguments file_close {Env}.
Arguments libm_exp {Env}.
Arguments str_float {Env}.
Arguments repr_TrainingArguments {Env}.

(** ** The state and error monad of the script *)

Record St (Env : Type) := {
  env : Env;
  trace : list Event
}.
Arguments env {Env}.
Arguments trace {Env}.

(** The state at process start: nothing has happened. *)
Definition initial {Env} (e : Env) : St Env :=
  {| env := e; trace := [] |}.

Definition M (Env A : Type) : Type := St Env → result A * St Env.

Definition ret {Env A} (a : A) : M Env A := λ st, (Ok a, st).

Definition raise {Env A} (e : Exn) : M Env A := λ st, (Raise e, st).

Definition bind {Env A B} (m : M Env A) (f : A → M Env B) : M Env B :=
  λ st, match m st with
        | (Ok a, st') => f a st'
        | (Raise e, st') => (Raise e, st')
        end.

Declare Scope py_scope.
Delimit Scope py_scope with py.
Notation "x ← y ; z" := (bind y (λ x, z))
  (at level 20, y at level 100, z at level 200, only parsing) : py_scope.
Notation "' x ← y ; z" := (bind y (λ x, z))
  (at level 20, x pattern, y at level 100, z at level 200, only parsing) : py_scope.
Notation "x ;; z" := (bind x (λ _, z))
  (at level 100, z at level 200, only parsing, right associativity) : py_scope.
Open Scope py_scope.

Definition log_event {Env} (e : Event) (st : St Env) : St Env :=
  {| env := env st; trace := trace st ++ [e] |}.

(** A call that only reads the outside world. *)
Definition query {Env R} (ev : R → Event) (q : Env → R) : M Env R :=
  λ st, let r := q (env st) in (Ok r, log_event (ev r) st).

(** A call that may fail, with the exception it raises. *)
Definition query_r {Env X} (ev : result X → Event) (q : Env → result X) : M Env X :=
  λ st, let r := q (env st) in (r, log_event (ev r) st).

(** A call with effects on the outside world. *)
Definition extcall {Env X} (ev : result X → Event) (f : Env → result X * Env) : M Env X :=
  λ st, let '(r, e') := f (env st) in
        (r, {| env := e'; trace := trace st ++ [ev r] |}).

(** A call that returns nothing: Python's None is the one value [tt]. *)
Definition returns_none (r : result unit) : result unit :=
  match r with Ok _ => Ok tt | Raise e => Raise e end.

Definition extcall_none {Env} (ev : result unit → Event) (f : Env → result unit * Env)
  : M Env unit :=
  extcall ev (λ e, let '(r, e') := f e in (returns_none r, e')).

(** A value or an exception computed without the outside world. *)
Definition of_result {Env A} (r : result A) : M Env A := λ st, (r, st).

(** [for x in xs: body(x)] *)
Fixpoint for_ {Env A} (xs : list A) (body : A → M Env unit) : M Env unit :=
  match xs with
  | [] => ret tt
  | x :: rest => body x ;; for_ rest body
  end.

(** ** Python's library functions used by the script *)

(** [math.exp]: the C library's [exp], with CPython's error checks on the
    result (a NaN from a number is a domain error, an infinity from a
    finite number is a range error). *)
Definition math_exp (libm_exp : float → float) (x : float) : result float :=
  let r := libm_exp x in
  if is_nan r && negb (is_nan x) then Raise (ValueError "math domain error")
  else if is_infinity r && is_finite x then Raise (OverflowError "math range error")
  else Ok r.

Definition ends_with_sep (s : string) : bool :=
  match String.rev s with
  | String c _ => bool_decide (c = "/"%char)
  | EmptyString => false
  end.

(** [os.path.join(a, b)] on POSIX. *)
Definition os_path_join (a b : string) : string :=
  match b with
  | String "/" _ => b
  | _ => if bool_decide (a = "") || ends_with_sep a then a ++ b
         else a ++ "/" ++ b
  end.

(** [sorted(d.keys())]: strings compare by code points. *)
Definition sorted_keys {V} (d : gmap string V) : list string :=
  merge_sort String.le (map fst (map_to_list d)).

Definition newline : string := String "010"%char EmptyString.

(** [str(b)] and [str(n)] for a bool and an int. *)
Definition str_bool (b : bool) : string := if b then "True" else "False".
Definition str_int (n : Z) : string := pretty n.

(** ** The script *)

Definition checkpoint_id : string := "allenai/longformer-base-4096".

Definition doc_start : string := "<doc-s>".
Definition doc_end : string := "</doc-s>".

Definition eval_file_msg : string :=
  "Cannot do evaluation without an evaluation data file. Either supply a file to --eval_data_file "
  ++ "or remove the --do_eval argument.".

Definition output_dir_msg (dir : string) : string :=
  "Output directory (" ++ dir
  ++ ") already exists and is not empty. Use --overwrite_output_dir to overcome.".

Section Script.
Context {Env : Type} (W : World Env).

(** *** Logging *)

(** [logging.basicConfig(level=...)] sets the level of the root logger. *)
Definition logging_basicConfig (level : Level) : M Env unit :=
  λ st, (Ok tt, log_event (EvBasicConfig level) st).

(** The calls of the module's logger.  The trace has the call; whether
    the record is printed depends on the level that was configured. *)
Definition logger_warning (fmt : string) (args : list string) : M Env unit :=
  λ st, (Ok tt, log_event (EvLog WARN fmt args) st).

Definition logger_info (fmt : string) (args : list string) : M Env unit :=
  λ st, (Ok tt, log_event (EvLog INFO fmt args) st).

(** *** The collaborators' constructors and methods *)

(** [TextDataset(tokenizer=, split=, file_path=, block_size=, local_rank=)] *)
Definition TextDataset_new (tokenizer : Tokenizer) (split : string)
    (file_path : option string) (block_size : Z) (local_rank : Z) : M Env TextDataset :=
  examples ← extcall (EvTextDataset tokenizer split file_path block_size local_rank)
               (λ e, TextDataset_init W e tokenizer split file_path block_size local_rank);
  ret {| ds_tokenizer := tokenizer; ds_split := split; ds_file_path := file_path;
         ds_block_size := block_size; ds_local_rank := local_rank;
         ds_examples := examples |}.

Definition DataCollatorForLanguageModeling_new (tokenizer : Tokenizer) (mlm : bool)
    (mlm_probability : float) (globalize_special_tokens : bool)
  : M Env DataCollatorForLanguageModeling :=
  let c := {| dc_tokenizer := tokenizer; dc_mlm := mlm;
              dc_mlm_probability := mlm_probability;
              dc_globalize_special_tokens := globalize_special_tokens |} in
  extcall_none (EvDataCollator c) (λ e, DataCollator_init W e c) ;;
  ret c.

Definition Trainer_new (model : LongformerForMaskedLM) (args : TrainingArguments)
    (data_collator : DataCollatorForLanguageModeling) (train_dataset : TextDataset)
    (prediction_loss_only : bool) : M Env Trainer :=
  let t := {| tr_model := model; tr_args := args; tr_data_collator := data_collator;
              tr_train_dataset := train_dataset;
              tr_prediction_loss_only := prediction_loss_only |} in
  extcall_none (EvTrainer t) (λ e, Trainer_init W e t) ;;
  ret t.

(** [set_seed(seed)] seeds the random generators of the outside world. *)
Definition transformers_set_seed (s : Z) : M Env unit :=
  λ st, (Ok tt, {| env := set_seed W (env st) s;
                   trace := trace st ++ [EvSetSeed s] |}).

(** [model.resize_token_embeddings(n)]; the new rows are drawn from the
    outside world's random generator. *)
Definition model_resize_token_embeddings (n : nat) (model : LongformerForMaskedLM)
  : M Env LongformerForMaskedLM :=
  λ st, (Ok (resize_token_embeddings (init_weights W (env st)) n model),
         {| env := after_init_weights W (env st) (n - length (word_embeddings model));
            trace := trace st ++ [EvResizeTokenEmbeddings n] |}).

(** [with open(path, "w") as writer: body]: the file is closed on the way
    out, also when the body raises. *)
Definition with_open_w {A} (path : string) (body : M Env A) : M Env A :=
  extcall_none (EvOpen path "w") (λ e, os_open W e path "w") ;;
  λ st, let '(r, st') := body st in
        match extcall_none (EvClose path) (λ e, file_close W e path) st' with
        | (Ok _, st'') => (r, st'')
        | (Raise e, st'') => (Raise e, st'')
        end.

Definition writer_write (path data : string) : M Env unit :=
  extcall_none (EvWrite path data) (λ e, file_write W e path data).

(** [d[key]] *)
Definition dict_get {V} (d : gmap string V) (key : string) : M Env V :=
  match d !! key with
  | Some v => ret v
  | None => raise (KeyError key)
  end.

(** *** [get_dataset] (lines 115-119) *)
Definition get_dataset (args : DataTrainingArguments) (tokenizer : Tokenizer)
    (evaluate : bool) (local_rank : Z) : M Env TextDataset :=
  let file_path := if evaluate then eval_data_file args else train_data_file args in
  TextDataset_new tokenizer (if evaluate then "dev" else "train") file_path
    (block_size args) local_rank.

(** *** The report (lines 199-203), for any mapping of metrics *)
Definition write_eval_results (output_eval_file : string) (result : gmap string float)
  : M Env unit :=
  with_open_w output_eval_file (
    logger_info "***** Eval results *****" [] ;;
    for_ (sorted_keys result) (λ key,
      v ← dict_get result key;
      logger_info "  %s = %s" [key; str_float W v] ;;
      v ← dict_get result key;
      writer_write output_eval_file (key ++ " = " ++ str_float W v ++ newline))).

(** *** [main] (lines 122-207) *)
Definition main : M Env (gmap string float) :=
  '(model_args, data_args, training_args) ←
     query_r EvParseArgs (parse_args_into_dataclasses W);

  (if bool_decide (eval_data_file data_args = None) && do_eval training_args
   then raise (ValueError eval_file_msg) else ret tt) ;;

  clobber ←
    (exists_ ← query (EvPathExists (output_dir training_args))
                 (λ e, os_path_exists W e (output_dir training_args));
     if exists_ then
       entries ← query_r (EvListdir (output_dir training_args))
                   (λ e, os_listdir W e (output_dir training_args));
       ret (negb (bool_decide (entries = [])) && do_train training_args
            && negb (overwrite_output_dir training_args))
     else ret false);
  (if clobber then raise (ValueError (output_dir_msg (output_dir training_args)))
   else ret tt) ;;

  logging_basicConfig
    (if bool_decide (local_rank training_args = -1)
        || bool_decide (local_rank training_args = 0) then INFO else WARN) ;;
  logger_warning
    "Process rank: %s, device: %s, n_gpu: %s, distributed training: %s, 16-bits training: %s"
    [str_int (local_rank training_args); device training_args;
     str_int (n_gpu training_args);
     str_bool (negb (bool_decide (local_rank training_args = -1)));
     str_bool (fp16 training_args)] ;;
  logger_info "Training/evaluation parameters %s"
    [repr_TrainingArguments W training_args] ;;

  transformers_set_seed (seed training_args) ;;

  model ← extcall (EvModelFromPretrained checkpoint_id)
            (λ e, Model_from_pretrained W e checkpoint_id);
  tokenizer ← extcall (EvTokenizerFromPretrained checkpoint_id)
                (λ e, Tokenizer_from_pretrained W e checkpoint_id);
  let tokenizer := snd (add_tokens [doc_start] true tokenizer) in
  let tokenizer := snd (add_tokens [doc_end] true tokenizer) in

  let data_args := set_block_size 4096 data_args in

  train_dataset ← get_dataset data_args tokenizer false (local_rank training_args);
  model ← model_resize_token_embeddings (len tokenizer) model;
  data_collator ← DataCollatorForLanguageModeling_new tokenizer (mlm data_args)
                    (mlm_probability data_args) (globalize_special_tokens data_args);

  trainer ← Trainer_new model training_args data_collator train_dataset true;

  model_path ←
    match model_name_or_path model_args with
    | Some p =>
        isdir ← query (EvPathIsdir p) (λ e, os_path_isdir W e p);
        ret (if isdir then Some p else None)
    | None => ret None
    end;
  extcall_none (EvTrain trainer model_path)
    (λ e, Trainer_train W e trainer model_path) ;;
  master ← query EvIsWorldMaster (λ e, Trainer_is_world_master W e trainer);
  (if master then
     extcall_none (EvSavePretrained tokenizer (output_dir training_args))
       (λ e, Tokenizer_save_pretrained W e tokenizer (output_dir training_args))
   else ret tt) ;;

  let results : gmap string float := ∅ in
  logger_info "*** Evaluate ***" [] ;;

  eval_output ← extcall (EvEvaluate trainer) (λ e, Trainer_evaluate W e trainer);

  loss ← dict_get eval_output "loss";
  perplexity ← of_result (math_exp (libm_exp W) loss);
  let result : gmap string float := {[ "perplexity" := perplexity ]} in

  let output_eval_file := os_path_join (output_dir training_args) "eval_results_lm.txt" in
  write_eval_results output_eval_file result ;;

  let results := result ∪ results in

  ret results.

End Script.

(** ** A simulated world, to run the script

    A small file system (directories with their entries, files with their
    contents), a checkpoint with a three-token vocabulary, a trainer whose
    evaluation returns a given loss, and a reference [exp] on binary64. *)

Module Sim.

Record Env := {
  dirs : gmap string (list string);
  files : gmap string string
}.

(** [e^x] for a small [x], by the Taylor polynomial of degree 20. *)
Definition exp_small (x : float) : float :=
  fold_right (λ k acc, 1 + x * acc / k)%float 1%float
    [1; 2; 3; 4; 5; 6; 7; 8; 9; 10; 11; 12; 13; 14; 15; 16; 17; 18; 19; 20]%float.

Definition square_n (n : nat) (x : float) : float :=
  Nat.iter n (λ y, y * y)%float x.

(** A reference [exp]: the argument is scaled down by 2^10, and the
    result is squared ten times; out of the range of binary64 the result
    is the infinity or zero that the C library returns. *)
Definition exp (x : float) : float :=
  if is_nan x then x
  else if (709.782712893384 <? x)%float then infinity
  else if (x <? -745.2)%float then 0%float
  else square_n 10 (exp_small (x / 1024)).

(** A decimal rendering is not needed to run the script: a float is
    shown by a tag, except the values used in the examples. *)
Definition str (x : float) : string :=
  if (x =? 1)%float then "1.0"
  else if is_infinity x then "inf"
  else "<float>".

Definition base_vocab : gmap string nat :=
  {[ "<s>" := 0%nat; "</s>" := 1%nat; "<unk>" := 2%nat ]}.

Definition checkpoint_tokenizer : Tokenizer :=
  {| vocab := base_vocab; special_tokens := {[ "<s>"; "</s>"; "<unk>" ]} |}.

Definition checkpoint_model : LongformerForMaskedLM :=
  {| word_embeddings := [[0.5]; [0.25]; [0.125]]%float;
     config_vocab_size := 3;
     transformer_weights := [1; 2]%float |}.

Definition world
    (argv : result (ModelArguments * DataTrainingArguments * TrainingArguments))
    (eval_output : result (gmap string float)) : World Env := {|
  parse_args_into_dataclasses := λ _, argv;
  os_path_exists := λ e p, bool_decide (is_Some (dirs e !! p) ∨ is_Some (files e !! p));
  os_listdir := λ e p,
    match dirs e !! p with
    | Some entries => Ok entries
    | None => Raise (OtherError "FileNotFoundError" p)
    end;
  os_path_isdir := λ e p, bool_decide (is_Some (dirs e !! p));
  set_seed := λ e _, e;
  Model_from_pretrained := λ e id,
    (if bool_decide (id = checkpoint_id) then Ok checkpoint_model
     else Raise (OtherError "OSError" id), e);
  Tokenizer_from_pretrained := λ e id,
    (if bool_decide (id = checkpoint_id) then Ok checkpoint_tokenizer
     else Raise (OtherError "OSError" id), e);
  TextDataset_init := λ e _ _ file_path _ _,
    (match file_path with
     | Some _ => Ok [[0; 2; 1]%nat]
     | None => Raise (OtherError "TypeError" "file_path")
     end, e);
  init_weights := λ _ _, [0%float];
  after_init_weights := λ e _, e;
  DataCollator_init := λ e _, (Ok tt, e);
  Trainer_init := λ e _, (Ok tt, e);
  Trainer_train := λ e _ _, (Ok tt, e);
  Trainer_is_world_master := λ _ t, bool_decide (local_rank (tr_args t) = -1);
  Tokenizer_save_pretrained := λ e _ _, (Ok tt, e);
  Trainer_evaluate := λ e _, (eval_output, e);
  os_open := λ e p _, (Ok tt, {| dirs := dirs e; files := <[p := ""]> (files e) |});
  file_write := λ e p data,
    (Ok tt, {| dirs := dirs e; files := <[p := default "" (files e !! p) ++ data]> (files e) |});
  file_close := λ e _, (Ok tt, e);
  libm_exp := exp;
  str_float := str;
  repr_TrainingArguments := λ a, "TrainingArguments(output_dir=" ++ output_dir a ++ ")"
|}.

Definition training_args (dir : string) (train eval overwrite : bool)
  : TrainingArguments :=
  {| output_dir := dir; do_train := train; do_eval := eval;
     overwrite_output_dir := overwrite; local_rank := -1; device := "cpu";
     n_gpu := 0; fp16 := false; seed := 42 |}.

(** An empty output directory [out], and a directory [old] with the
    outputs of a prior run. *)
Definition env0 : Env :=
  {| dirs := {[ "out" := []; "old" := ["checkpoint-500"] ]}; files := ∅ |}.

(** The default model and data arguments, with the given training
    arguments. *)
Definition args (dir : string) (train eval overwrite : bool)
  : ModelArguments * DataTrainingArguments * TrainingArguments :=
  (ModelArguments_default, DataTrainingArguments_default,
   training_args dir train eval overwrite).

(** The world of a run with the given arguments, in which the evaluation
    returns the given loss. *)
Definition world_of (a : ModelArguments * DataTrainingArguments * TrainingArguments)
    (loss : float) : World Env :=
  world (Ok a) (Ok {[ "loss" := loss ]}).

End Sim.

(** ** Reading a trace *)

(** [a] occurs in the trace, and [b] occurs later. *)
Definition precedes (a b : Event) (tr : list Event) : Prop :=
  ∃ l1 l2 l3, tr = (l1 ++ a :: l2 ++ b :: l3)%list.

(** The first event of the trace that [f] recognises, as [f] reads it. *)
Fixpoint first_of {A} (f : Event → option A) (tr : list Event) : option A :=
  match tr with
  | [] => None
  | ev :: rest =>
      match f ev with
      | Some a => Some a
      | None => first_of f rest
      end
  end.

(** The tokenizer and the model that were loaded, the trainer that was
    built, and what the evaluation returned. *)
Definition tokenizer_loaded (ev : Event) : option Tokenizer :=
  match ev with EvTokenizerFromPretrained _ (Ok t) => Some t | _ => None end.

Definition model_loaded (ev : Event) : option LongformerForMaskedLM :=
  match ev with EvModelFromPretrained _ (Ok m) => Some m | _ => None end.

Definition trainer_built (ev : Event) : option Trainer :=
  match ev with EvTrainer t _ => Some t | _ => None end.

Definition evaluated (ev : Event) : option (gmap string float) :=
  match ev with EvEvaluate _ (Ok d) => Some d | _ => None end.

Definition logging_configured (ev : Event) : option Level :=
  match ev with EvBasicConfig level => Some level | _ => None end.

(** The data written to the file at [path], in order. *)
Fixpoint written (path : string) (tr : list Event) : list string :=
  match tr with
  | [] => []
  | EvWrite p data (Ok _) :: rest =>
      if decide (p = path) then data :: written path rest else written path rest
  | _ :: rest => written path rest
  end.

(** The line of the report for one metric. *)
Definition report_line {Env} (W : World Env) (result : gmap string float) (key : string)
  : string :=
  key ++ " = " ++ str_float W (default 0%float (result !! key)) ++ newline.

(** ** Reading the course of a run *)

(** The place of a collaborator's call in the script; the calls of the
    logger, which recur, have none. *)
Definition stage (ev : Event) : option nat :=
  match ev with
  | EvParseArgs _ => Some 0
  | EvPathExists _ _ => Some 1
  | EvListdir _ _ => Some 2
  | EvBasicConfig _ => Some 3
  | EvLog _ _ _ => None
  | EvSetSeed _ => Some 4
  | EvModelFromPretrained _ _ => Some 5
  | EvTokenizerFromPretrained _ _ => Some 6
  | EvTextDataset _ _ _ _ _ _ => Some 7
  | EvResizeTokenEmbeddings _ => Some 8
  | EvDataCollator _ _ => Some 9
  | EvTrainer _ _ => Some 10
  | EvPathIsdir _ _ => Some 11
  | EvTrain _ _ _ => Some 12
  | EvIsWorldMaster _ => Some 13
  | EvSavePretrained _ _ _ => Some 14
  | EvEvaluate _ _ => Some 15
  | EvOpen _ _ _ => Some 16
  | EvWrite _ _ _ => Some 17
  | EvClose _ _ => Some 18
  end%nat.

(** The stages of the events of a trace, in order. *)
Fixpoint stages (tr : list Event) : list nat :=
  match tr with
  | [] => []
  | ev :: rest =>
      match stage ev with
      | Some n => n :: stages rest
      | None => stages rest
      end
  end.

(** [increasing l]: each number is below the next ones. *)
Fixpoint increasing (l : list nat) : bool :=
  match l with
  | [] => true
  | n :: rest =>
      match rest with
      | [] => true
      | m :: _ => (n <? m)%nat && increasing rest
      end
  end.

(** The exception of a call that failed. *)
Definition event_error (ev : Event) : option Exn :=
  match ev with
  | EvParseArgs (Raise ex) | EvListdir _ (Raise ex)
  | EvModelFromPretrained _ (Raise ex) | EvTokenizerFromPretrained _ (Raise ex)
  | EvTextDataset _ _ _ _ _ (Raise ex) | EvDataCollator _ (Raise ex)
  | EvTrainer _ (Raise ex) | EvTrain _ _ (Raise ex) | EvSavePretrained _ _ (Raise ex)
  | EvEvaluate _ (Raise ex) | EvOpen _ _ (Raise ex) | EvWrite _ _ (Raise ex)
  | EvClose _ (Raise ex) => Some ex
  | _ => None
  end.

(** The first failure of a trace, with the events that follow it. *)
Fixpoint first_failure (tr : list Event) : option (Exn * list Event) :=
  match tr with
  | [] => None
  | ev :: rest =>
      match event_error ev with
      | Some ex => Some (ex, rest)
      | None => first_failure rest
      end
  end.

(** Both sentinel tokens are in the vocabulary and marked special. *)
Definition has_sentinels (t : Tokenizer) : Prop :=
  is_Some (vocab t !! doc_start) ∧ is_Some (vocab t !! doc_end)
  ∧ doc_start ∈ special_tokens t ∧ doc_end ∈ special_tokens t.

Definition isdir_answered (ev : Event) : option (string * bool) :=
  match ev with EvPathIsdir p r => Some (p, r) | _ => None end.

Definition train_called (ev : Event) : option (option string) :=
  match ev with EvTrain _ model_path _ => Some model_path | _ => None end.

Definition master_answered (ev : Event) : option bool :=
  match ev with EvIsWorldMaster r => Some r | _ => None end.

Definition saved (ev : Event) : option (Tokenizer * string) :=
  match ev with EvSavePretrained t dir _ => Some (t, dir) | _ => None end.

Definition opened (ev : Event) : option (string * string) :=
  match ev with EvOpen path mode _ => Some (path, mode) | _ => None end.

Definition warned (ev : Event) : option (string * list string) :=
  match ev with EvLog WARN fmt args => Some (fmt, args) | _ => None end.

(** The tokenizer after the two registrations of [main] (lines 161-162). *)
Definition registered (t : Tokenizer) : Tokenizer :=
  snd (add_tokens [doc_end] true (snd (add_tokens [doc_start] true t))).

(** The data set and the collator that a constructor call has built, and
    the trainer that trains and that evaluates. *)
Definition dataset_built (ev : Event) : option TextDataset :=
  match ev with
  | EvTextDataset tok split file_path bs rank (Ok examples) =>
      Some {| ds_tokenizer := tok; ds_split := split; ds_file_path := file_path;
              ds_block_size := bs; ds_local_rank := rank; ds_examples := examples |}
  | _ => None
  end.

Definition collator_built (ev : Event) : option DataCollatorForLanguageModeling :=
  match ev with EvDataCollator c (Ok _) => Some c | _ => None end.

Definition trainer_trained (ev : Event) : option Trainer :=
  match ev with EvTrain t _ _ => Some t | _ => None end.

Definition trainer_evaluated (ev : Event) : option Trainer :=
  match ev with EvEvaluate t _ => Some t | _ => None end.

(** An event that hands on the tokenizer or the trainer. *)
Definition uses_tokenizer (ev : Event) : bool :=
  match ev with
  | EvTextDataset _ _ _ _ _ _ | EvDataCollator _ _ | EvSavePretrained _ _ _
  | EvTrainer _ _ | EvTrain _ _ _ | EvEvaluate _ _ => true
  | _ => false
  end.

(** ** The C library's [exp]

    The script gets [exp] from the platform.  What the C standard fixes
    are the special values (Annex F: [exp(±0)] is 1, [exp(+inf)] is
    [+inf], [exp(-inf)] is [+0], a NaN gives a NaN); the accuracy is the
    library's own.  A conforming [exp] is one with these special values
    whose result, for an argument between -700 and 700, is the reference
    value [Sim.exp] or within the relative tolerance 2^-40 of it. *)
Definition exp_tolerance : float := 0x1p-40%float.

Definition within_tolerance (r y : float) : bool :=
  is_finite y && (r * (1 - exp_tolerance) <=? y)%float
  && (y <=? r * (1 + exp_tolerance))%float.

Definition exp_conforms (f : float → float) : Prop :=
  f 0%float = 1%float ∧ f (-0)%float = 1%float
  ∧ f infinity = infinity ∧ f neg_infinity = 0%float
  ∧ (∀ x, is_nan x = true → is_nan (f x) = true)
  ∧ ∀ x, ((-700 <=? x) && (x <=? 700))%float = true →
         f x = Sim.exp x ∨ within_tolerance (Sim.exp x) (f x) = true.

(** ** More runs in the simulated world *)

Module Scenario.

(** The arguments of a run that names the directory of a prior run as
    [model_name_or_path]. *)
Definition resuming_args
  : ModelArguments * DataTrainingArguments * TrainingArguments :=
  ({| model_name_or_path := Some "old"; model_type := None; config_name := None;
      tokenizer_name := None; cache_dir := None |},
   DataTrainingArguments_default,
   Sim.training_args "out" true false false).

(** A world in which the evaluation fails. *)
Definition failing_evaluation : World Sim.Env :=
  Sim.world (Ok (Sim.args "out" true false false))
    (Raise (OtherError "RuntimeError" "CUDA out of memory")).

(** A world in which the evaluation returns no loss. *)
Definition no_loss : World Sim.Env :=
  Sim.world (Ok (Sim.args "out" true false false)) (Ok ∅).

(** A checkpoint whose embedding matrix is padded: six rows for the three
    tokens of the tokenizer. *)
Definition padded_model : LongformerForMaskedLM :=
  {| word_embeddings := [[0.5]; [0.25]; [0.125]; [0.75]; [0.375]; [0.625]]%float;
     config_vocab_size := 6;
     transformer_weights := [1; 2]%float |}.

(** The simulated world, with that checkpoint. *)
Definition padded_checkpoint : World Sim.Env :=
  let w := Sim.world_of (Sim.args "out" true false false) 0 in
  {| parse_args_into_dataclasses := parse_args_into_dataclasses w;
     os_path_exists := os_path_exists w;
     os_listdir := os_listdir w;
     os_path_isdir := os_path_isdir w;
     set_seed := set_seed w;
     Model_from_pretrained := λ e id,
       (if bool_decide (id = checkpoint_id) then Ok padded_model
        else Raise (OtherError "OSError" id), e);
     Tokenizer_from_pretrained := Tokenizer_from_pretrained w;
     TextDataset_init := TextDataset_init w;
     init_weights := init_weights w;
     after_init_weights := after_init_weights w;
     DataCollator_init := DataCollator_init w;
     Trainer_init := Trainer_init w;
     Trainer_train := Trainer_train w;
     Trainer_is_world_master := Trainer_is_world_master w;
     Tokenizer_save_pretrained := Tokenizer_save_pretrained w;
     Trainer_evaluate := Trainer_evaluate w;
     os_open := os_open w;
     file_write := file_write w;
     file_close := file_close w;
     libm_exp := libm_exp w;
     str_float := str_float w;
     repr_TrainingArguments := repr_TrainingArguments w |}.

(** The arguments of a run with a block size of the user. *)
Definition block_512_args
  : ModelArguments * DataTrainingArguments * TrainingArguments :=
  (ModelArguments_default, set_block_size 512 DataTrainingArguments_default,
   Sim.training_args "out" true false false).

End Scenario.

(** * Properties *)

(** ** The vocabulary *)

Section Vocabulary.
Implicit Types (v : gmap string nat) (t : Tokenizer) (tok : string).

Lemma tokens_to_add_present v new_tokens acc :
  Forall (λ tok, is_Some (v !! tok)) new_tokens →
  tokens_to_add v new_tokens acc = acc.
Proof.
  intros Hall. revert acc.
  induction Hall as [|tok rest Htok _ IH]; intros acc; simpl; [done|].
  rewrite decide_True by auto. apply IH.
Qed.

Lemma tokens_to_add_single_fresh v tok :
  v !! tok = None → tokens_to_add v [tok] [] = [tok].
Proof.
  intros Hnone. simpl. rewrite decide_False; [done|].
  intros [[i Hi]|Hin]; [congruence|]. by apply not_elem_of_nil in Hin.
Qed.

(** Adding tokens that are all present changes nothing in the
    vocabulary and adds no token. *)
Lemma add_tokens_present new_tokens special t :
  Forall (λ tok, is_Some (vocab t !! tok)) new_tokens →
  fst (add_tokens new_tokens special t) = 0%nat ∧
  vocab (snd (add_tokens new_tokens special t)) = vocab t.
Proof.
  intros Hall. unfold add_tokens.
  rewrite (tokens_to_add_present _ _ _ Hall). done.
Qed.

(** Adding one new token gives it the id [len t]. *)
Lemma add_tokens_fresh tok special t :
  vocab t !! tok = None →
  fst (add_tokens [tok] special t) = 1%nat ∧
  vocab (snd (add_tokens [tok] special t)) = <[tok := len t]> (vocab t).
Proof.
  intros Hnone. unfold add_tokens.
  rewrite (tokens_to_add_single_fresh _ _ Hnone). done.
Qed.

Lemma add_tokens_special new_tokens t :
  special_tokens (snd (add_tokens new_tokens true t))
  = special_tokens t ∪ list_to_set new_tokens.
Proof. done. Qed.

(** After [add_tokens [tok]] the token is in the vocabulary, and what was
    in the vocabulary still is, with the id it had. *)
Lemma add_tokens_single_lookup tok special t :
  is_Some (vocab (snd (add_tokens [tok] special t)) !! tok).
Proof.
  destruct (vocab t !! tok) as [i|] eqn:Hlook.
  - destruct (add_tokens_present [tok] special t) as [_ ->]; [|by eauto].
    constructor; [by eauto|constructor].
  - destruct (add_tokens_fresh tok special t Hlook) as [_ ->].
    rewrite lookup_insert_eq. by eauto.
Qed.

Lemma add_tokens_single_keeps tok special t s i :
  vocab t !! s = Some i →
  vocab (snd (add_tokens [tok] special t)) !! s = Some i.
Proof.
  intros Hs. destruct (vocab t !! tok) as [j|] eqn:Hlook.
  - destruct (add_tokens_present [tok] special t) as [_ ->]; [|done].
    constructor; [by eauto|constructor].
  - destruct (add_tokens_fresh tok special t Hlook) as [_ ->].
    rewrite lookup_insert_ne; [done|]. intros ->. congruence.
Qed.

Lemma len_add_tokens_fresh tok special t :
  vocab t !! tok = None →
  len (snd (add_tokens [tok] special t)) = S (len t).
Proof.
  intros Hnone. unfold len at 1.
  destruct (add_tokens_fresh tok special t Hnone) as [_ ->].
  by apply map_size_insert_None.
Qed.

(** Registering a new token keeps the ids distinct and below the size. *)
Lemma tokenizer_wf_add_tokens tok special t :
  tokenizer_wf t → tokenizer_wf (snd (add_tokens [tok] special t)).
Proof.
  intros [Hinj Hlt].
  destruct (vocab t !! tok) as [j|] eqn:Hlook.
  - destruct (add_tokens_present [tok] special t) as [_ Hv].
    { constructor; [by eauto|constructor]. }
    unfold tokenizer_wf, len. rewrite Hv. by split.
  - pose proof (len_add_tokens_fresh tok special t Hlook) as Hlen.
    destruct (add_tokens_fresh tok special t Hlook) as [_ Hv].
    unfold tokenizer_wf. rewrite Hlen, Hv. split.
    + intros s1 s2 i H1 H2.
      apply lookup_insert_Some in H1 as [[<- <-]|[Hne1 H1]];
        apply lookup_insert_Some in H2 as [[<- Hi]|[Hne2 H2]]; try done.
      * apply Hlt in H2. lia.
      * apply Hlt in H1. lia.
      * by eapply Hinj.
    + intros s i Hs.
      apply lookup_insert_Some in Hs as [[<- <-]|[_ Hs]]; [lia|].
      apply Hlt in Hs. lia.
Qed.

End Vocabulary.

(** ** The embedding matrix *)

Section Embeddings.
Implicit Types (m : LongformerForMaskedLM) (init_row : nat → Row).

Lemma resize_token_embeddings_length init_row n m :
  length (word_embeddings (resize_token_embeddings init_row n m)) = n.
Proof.
  unfold resize_token_embeddings. simpl.
  rewrite length_app, length_take, length_map, length_seq. lia.
Qed.

(** The rows below the new size are the old ones. *)
Lemma resize_token_embeddings_lookup init_row n m i row :
  (i < n)%nat → word_embeddings m !! i = Some row →
  word_embeddings (resize_token_embeddings init_row n m) !! i = Some row.
Proof.
  intros Hi Hrow. unfold resize_token_embeddings. simpl.
  rewrite lookup_app_l.
  - by rewrite lookup_take_lt.
  - rewrite length_take. apply lookup_lt_Some in Hrow. lia.
Qed.

(** Growing the matrix appends rows to it. *)
Lemma resize_token_embeddings_grow init_row n m :
  (length (word_embeddings m) ≤ n)%nat →
  ∃ new_rows,
    word_embeddings (resize_token_embeddings init_row n m)
    = (word_embeddings m ++ new_rows)%list ∧
    length new_rows = (n - length (word_embeddings m))%nat.
Proof.
  intros Hle. eexists. unfold resize_token_embeddings. simpl.
  rewrite take_ge by done. split; [done|].
  by rewrite length_map, length_seq.
Qed.

End Embeddings.

(** ** Running the script symbolically *)

Section Run.
Context {Env : Type} (W : World Env).
Implicit Types (st : St Env).

Lemma sorted_keys_singleton {V} k (v : V) :
  sorted_keys ({[k := v]} : gmap string V) = [k].
Proof. unfold sorted_keys. by rewrite map_to_list_singleton. Qed.

(** The report of a single metric: the file is opened, the line is
    written, the file is closed. *)
Lemma write_eval_results_singleton path k v st :
  write_eval_results W path {[k := v]} st =
  let line := k ++ " = " ++ str_float W v ++ newline in
  match os_open W (env st) path "w" with
  | (Raise ex, e1) =>
      (Raise ex, {| env := e1; trace := trace st ++ [EvOpen path "w" (Raise ex)] |})
  | (Ok _, e1) =>
      match file_write W e1 path line with
      | (rw, e2) =>
          match file_close W e2 path with
          | (rc, e3) =>
              (match returns_none rc with
               | Ok _ => returns_none rw
               | Raise ex => Raise ex
               end,
               {| env := e3;
                  trace := (trace st ++
                            [EvOpen path "w" (Ok tt);
                             EvLog INFO "***** Eval results *****" [];
                             EvLog INFO "  %s = %s" [k; str_float W v];
                             EvWrite path line (returns_none rw);
                             EvClose path (returns_none rc)])%list |})
          end
      end
  end.
Proof.
  unfold write_eval_results, with_open_w, bind at 1, extcall_none at 1, extcall at 1.
  destruct (os_open W (env st) path "w") as [[[]|ex] e1]; [|done].
  rewrite sorted_keys_singleton. cbn [for_]. unfold dict_get.
  rewrite lookup_singleton_eq.
  unfold bind, logger_info, ret, writer_write, extcall_none, extcall, log_event.
  cbn [env trace returns_none].
  destruct (file_write W e1 path _) as [[[]|ex] e2]; cbn [env trace returns_none];
    destruct (file_close W e2 path) as [[[]|ex'] e3]; cbn [env trace returns_none];
    rewrite <- ?app_assoc; reflexivity.
Qed.

End Run.

(** Unfolds the script and its monad down to the collaborators' answers,
    in the equation [H : main W (initial e) = (r, st')] of a run. *)
Ltac whnf_script H :=
  cbv beta iota zeta delta
    [main get_dataset TextDataset_new DataCollatorForLanguageModeling_new Trainer_new
     model_resize_token_embeddings transformers_set_seed logging_basicConfig
     logger_warning logger_info dict_get
     bind ret raise query query_r extcall extcall_none returns_none of_result
     log_event initial env trace app] in H.

(** Splits on the next answer that the run depends on. *)
Ltac next_case H :=
  match type of H with
  | context [match ?x with _ => _ end] =>
      lazymatch x with
      | context [match _ with _ => _ end] => fail
      | context [write_eval_results] =>
          rewrite write_eval_results_singleton in H
      | context [math_exp] => revert H; destruct x eqn:?; intros H
      | _ !! _ => revert H; destruct x eqn:?; intros H
      | _ => revert H; destruct x; intros H; cbn [fst snd]
      end
  end; whnf_script H.

Ltac start_script Hp H := whnf_script H; rewrite Hp in H; whnf_script H.

(** At the end of a run: the outcome [r] and the final state [st] are known. *)
Ltac finish_run H r st :=
  apply pair_equal_spec in H; destruct H as [? ?]; subst r st;
  cbn [fst snd trace env].

(** All the runs of the script from the parse on. *)
Ltac run_script Hp H r st :=
  start_script Hp H; repeat next_case H; finish_run H r st.

Lemma precedes_head (a b : Event) (tr : list Event) :
  In b tr → precedes a b (a :: tr).
Proof.
  intros Hin. apply in_split in Hin as (l2 & l3 & ->). by exists [], l2, l3.
Qed.

Lemma precedes_cons (a b ev : Event) (tr : list Event) :
  precedes a b tr → precedes a b (ev :: tr).
Proof. intros (l1 & l2 & l3 & ->). by exists (ev :: l1), l2, l3. Qed.

(** Finds the two events in a trace that is written out. *)
Ltac find_precedes :=
  repeat first
    [ apply precedes_head; solve [cbn [In]; repeat (first [left; reflexivity | right])]
    | apply precedes_cons ].

(** ** What every run does *)

Section Progress.
Context {Env : Type} (W : World Env).

Lemma first_of_In {A} (f : Event → option A) (ev : Event) (a : A) (tr : list Event) :
  In ev tr → f ev = Some a → is_Some (first_of f tr).
Proof.
  intros Hin Hf. induction tr as [|ev' rest IH]; [done|].
  cbn [first_of]. destruct (f ev') as [a'|] eqn:Hev'; [by eauto|].
  destruct Hin as [->|Hin]; [congruence|by apply IH].
Qed.

(** The loads and the data sets of a run are as the script dictates: the
    fixed checkpoint, with the world's answer for it, and the training set
    with block size 4096. *)
Lemma main_events e model_args data_args training_args :
  parse_args_into_dataclasses W e = Ok (model_args, data_args, training_args) →
  Forall (λ ev,
            match ev with
            | EvTextDataset _ split file_path bs rank _ =>
                bs = 4096 ∧ split = "train"
                ∧ file_path = train_data_file data_args
                ∧ rank = local_rank training_args
            | EvTrainer t _ => ds_block_size (tr_train_dataset t) = 4096
            | EvModelFromPretrained id r =>
                id = checkpoint_id
                ∧ r = fst (Model_from_pretrained W (set_seed W e (seed training_args))
                             checkpoint_id)
            | EvTokenizerFromPretrained id r =>
                id = checkpoint_id
                ∧ r = fst (Tokenizer_from_pretrained W
                             (snd (Model_from_pretrained W
                                     (set_seed W e (seed training_args)) checkpoint_id))
                             checkpoint_id)
            | _ => True
            end)
    (trace (snd (main W (initial e)))).
Proof.
  intros Hp. destruct (main W (initial e)) as [r st'] eqn:Hrun. cbn [snd].
  run_script Hp Hrun r st'; repeat constructor.
Qed.

(** How far a run gets: past the check on the evaluation file it looks up
    the output directory; past the startup checks (the logging is
    configured) it loads the model; with the model it loads the tokenizer;
    with the tokenizer it builds the training set. *)
Lemma main_progress e model_args data_args training_args :
  parse_args_into_dataclasses W e = Ok (model_args, data_args, training_args) →
  (bool_decide (eval_data_file data_args = None) && do_eval training_args = false →
   ∃ r rest,
     trace (snd (main W (initial e)))
     = EvParseArgs (Ok (model_args, data_args, training_args))
         :: EvPathExists (output_dir training_args) r :: rest)
  ∧ (is_Some (first_of logging_configured (trace (snd (main W (initial e))))) →
     ∃ r, In (EvModelFromPretrained checkpoint_id r) (trace (snd (main W (initial e)))))
  ∧ (is_Some (first_of model_loaded (trace (snd (main W (initial e))))) →
     ∃ r, In (EvTokenizerFromPretrained checkpoint_id r)
            (trace (snd (main W (initial e)))))
  ∧ (is_Some (first_of tokenizer_loaded (trace (snd (main W (initial e))))) →
     ∃ tok r,
       In (EvTextDataset tok "train" (train_data_file data_args) 4096
             (local_rank training_args) r)
         (trace (snd (main W (initial e))))).
Proof.
  intros Hp. destruct (main W (initial e)) as [r st'] eqn:Hrun. cbn [snd].
  run_script Hp Hrun r st';
    cbn [first_of logging_configured model_loaded tokenizer_loaded];
    (split; [intros Hc; try discriminate Hc; do 2 eexists; reflexivity|]);
    repeat split; intros Hsome; try (by apply is_Some_None in Hsome);
    repeat eexists; cbn [In]; repeat (first [left; reflexivity | right]).
Qed.

End Progress.

(** ** Startup validation *)

Section Startup.
Context {Env : Type} (W : World Env).

Lemma eval_file_msg_names_flag :
  ∃ pre post, eval_file_msg = pre ++ "--eval_data_file" ++ post.
Proof.
  exists "Cannot do evaluation without an evaluation data file. Either supply a file to ",
         " or remove the --do_eval argument.".
  reflexivity.
Qed.

Lemma eval_check_passes (data_args : DataTrainingArguments)
    (training_args : TrainingArguments) :
  do_eval training_args = false ∨ eval_data_file data_args ≠ None →
  bool_decide (eval_data_file data_args = None) && do_eval training_args = false.
Proof.
  intros [->| Hne]; [apply andb_false_r|]. by rewrite bool_decide_eq_false_2.
Qed.

(** C1. When evaluation is requested ([do_eval]) and no evaluation file is
    given, [main] raises the ValueError whose message names the flag
    [--eval_data_file], right after parsing the arguments: the trace holds
    the parse alone, so nothing has been loaded.  When [do_eval] is off or
    the file is given, the run gets past this check: its next step is the
    look-up of the output directory. *)
Theorem eval_check_fatal e model_args data_args training_args :
  parse_args_into_dataclasses W e = Ok (model_args, data_args, training_args) →
  (do_eval training_args = true → eval_data_file data_args = None →
     main W (initial e)
     = (Raise (ValueError eval_file_msg),
        {| env := e;
           trace := [EvParseArgs (Ok (model_args, data_args, training_args))] |})
     ∧ (∃ pre post, eval_file_msg = pre ++ "--eval_data_file" ++ post)
     ∧ Forall (λ ev, is_load ev = false) (trace (snd (main W (initial e)))))
  ∧ (do_eval training_args = false ∨ eval_data_file data_args ≠ None →
     ∃ r rest,
       trace (snd (main W (initial e)))
       = EvParseArgs (Ok (model_args, data_args, training_args))
           :: EvPathExists (output_dir training_args) r :: rest).
Proof.
  intros Hp. split.
  2: { intros Hpass. destruct (main_progress W _ _ _ _ Hp) as [Hnext _].
       apply Hnext. by apply eval_check_passes. }
  destruct (main W (initial e)) as [r st'] eqn:Hrun. cbn [fst snd].
  intros Hdo Hev. start_script Hp Hrun. rewrite Hdo, Hev in Hrun.
  finish_run Hrun r st'.
  split; [done|]. split; [apply eval_file_msg_names_flag|].
  repeat constructor.
Qed.

(** C2. When the output directory exists with entries in it, training is
    requested and [overwrite_output_dir] is off, [main] raises a
    ValueError and nothing has been loaded; the error is the one about
    the output directory, raised right after the directory was listed,
    unless the evaluation-file check has fired before.  With
    [overwrite_output_dir] on, and all else equal, a run that reaches
    this check gets past it: its next step configures the logging. *)
Theorem output_dir_check_fatal e model_args data_args training_args entries :
  parse_args_into_dataclasses W e = Ok (model_args, data_args, training_args) →
  os_path_exists W e (output_dir training_args) = true →
  os_listdir W e (output_dir training_args) = Ok entries →
  entries ≠ [] →
  do_train training_args = true →
  (overwrite_output_dir training_args = false →
     (∃ msg, fst (main W (initial e)) = Raise (ValueError msg)
             ∧ (msg = eval_file_msg ∨ msg = output_dir_msg (output_dir training_args)))
     ∧ Forall (λ ev, is_load ev = false) (trace (snd (main W (initial e))))
     ∧ (do_eval training_args = false ∨ eval_data_file data_args ≠ None →
        main W (initial e)
        = (Raise (ValueError (output_dir_msg (output_dir training_args))),
           {| env := e;
              trace := [EvParseArgs (Ok (model_args, data_args, training_args));
                        EvPathExists (output_dir training_args) true;
                        EvListdir (output_dir training_args) (Ok entries)] |})))
  ∧ (overwrite_output_dir training_args = true →
     do_eval training_args = false ∨ eval_data_file data_args ≠ None →
     ∃ level rest,
       trace (snd (main W (initial e)))
       = EvParseArgs (Ok (model_args, data_args, training_args))
           :: EvPathExists (output_dir training_args) true
           :: EvListdir (output_dir training_args) (Ok entries)
           :: EvBasicConfig level :: rest).
Proof.
  intros Hp Hexists Hlist Hentries Htrain.
  destruct (main W (initial e)) as [r st'] eqn:Hrun. cbn [fst snd].
  split.
  - intros Hover.
    assert (negb (bool_decide (entries = [])) && do_train training_args
            && negb (overwrite_output_dir training_args) = true) as Hclobber.
    { rewrite Htrain, Hover. by rewrite bool_decide_eq_false_2. }
    start_script Hp Hrun.
    destruct (bool_decide (eval_data_file data_args = None) && do_eval training_args)
      eqn:Hc.
    + finish_run Hrun r st'.
      split; [by eauto|]. split; [repeat constructor|].
      intros Hpass. by rewrite (eval_check_passes _ _ Hpass) in Hc.
    + rewrite Hexists, Hlist, Hclobber in Hrun. finish_run Hrun r st'.
      split; [by eauto|]. split; [repeat constructor|]. done.
  - intros Hover Hpass.
    assert (negb (bool_decide (entries = [])) && do_train training_args
            && negb (overwrite_output_dir training_args) = false) as Hclobber.
    { rewrite Hover. apply andb_false_r. }
    start_script Hp Hrun.
    rewrite (eval_check_passes _ _ Hpass), Hexists, Hlist, Hclobber in Hrun.
    whnf_script Hrun.
    repeat next_case Hrun; finish_run Hrun r st'; do 2 eexists; reflexivity.
Qed.

End Startup.

(** ** The data set *)

Section DatasetBuilt.
Context {Env : Type} (W : World Env).

(** Past the startup checks and with both loads successful, the training
    set is built from the loaded tokenizer after the two registrations,
    with block size 4096. *)
Lemma main_builds_dataset e model_args data_args training_args m0 t0 e1 e2 :
  parse_args_into_dataclasses W e = Ok (model_args, data_args, training_args) →
  do_eval training_args = false ∨ eval_data_file data_args ≠ None →
  (os_path_exists W e (output_dir training_args) = false
   ∨ ∃ entries,
       os_path_exists W e (output_dir training_args) = true
       ∧ os_listdir W e (output_dir training_args) = Ok entries
       ∧ (entries = [] ∨ do_train training_args = false
          ∨ overwrite_output_dir training_args = true)) →
  Model_from_pretrained W (set_seed W e (seed training_args)) checkpoint_id
  = (Ok m0, e1) →
  Tokenizer_from_pretrained W e1 checkpoint_id = (Ok t0, e2) →
  ∃ r,
    In (EvTextDataset (registered t0) "train" (train_data_file data_args) 4096
          (local_rank training_args) r)
      (trace (snd (main W (initial e)))).
Proof.
  intros Hp Hpass Hdir Hmodel Htok.
  destruct (main W (initial e)) as [r st'] eqn:Hrun. cbn [snd].
  start_script Hp Hrun. rewrite (eval_check_passes _ _ Hpass) in Hrun.
  destruct Hdir as [Hexists|(entries & Hexists & Hlist & Hfree)].
  - rewrite Hexists in Hrun. whnf_script Hrun.
    rewrite Hmodel in Hrun. whnf_script Hrun.
    rewrite Htok in Hrun. whnf_script Hrun.
    repeat next_case Hrun; finish_run Hrun r st';
      eexists; cbn [In]; unfold registered;
      repeat (first [left; reflexivity | right]).
  - assert (negb (bool_decide (entries = [])) && do_train training_args
            && negb (overwrite_output_dir training_args) = false) as Hclobber.
    { destruct Hfree as [->|[->| ->]]; [done| |]; by rewrite ?andb_false_r. }
    rewrite Hexists, Hlist, Hclobber in Hrun. whnf_script Hrun.
    rewrite Hmodel in Hrun. whnf_script Hrun.
    rewrite Htok in Hrun. whnf_script Hrun.
    repeat next_case Hrun; finish_run Hrun r st';
      eexists; cbn [In]; unfold registered;
      repeat (first [left; reflexivity | right]).
Qed.

End DatasetBuilt.

Section Dataset.
Context {Env : Type} (W : World Env).

(** C3. [get_dataset] builds the data set from [eval_data_file] with the
    split tag "dev" when [evaluate] is true, and from [train_data_file]
    with the tag "train" when it is false, with the configured block size
    and the given rank: this is the one constructor call it makes, and
    the fields of the data set it returns.  The other file field plays no
    part, whatever its value. *)
Theorem get_dataset_selects_file (args : DataTrainingArguments) (tokenizer : Tokenizer)
    (evaluate : bool) (rank : Z) (st : St Env) :
  let split := if evaluate then "dev" else "train" in
  let file_path := if evaluate then eval_data_file args else train_data_file args in
  get_dataset W args tokenizer evaluate rank
  = TextDataset_new W tokenizer split file_path (block_size args) rank
  ∧ trace (snd (get_dataset W args tokenizer evaluate rank st))
    = (trace st ++
       [EvTextDataset tokenizer split file_path (block_size args) rank
          (fst (TextDataset_init W (env st) tokenizer split file_path
                  (block_size args) rank))])%list
  ∧ (∀ ds, fst (get_dataset W args tokenizer evaluate rank st) = Ok ds →
       ds_tokenizer ds = tokenizer ∧ ds_split ds = split
       ∧ ds_file_path ds = file_path ∧ ds_block_size ds = block_size args
       ∧ ds_local_rank ds = rank)
  ∧ (∀ args' : DataTrainingArguments,
       block_size args' = block_size args →
       (if evaluate then eval_data_file args' = eval_data_file args
        else train_data_file args' = train_data_file args) →
       get_dataset W args' tokenizer evaluate rank
       = get_dataset W args tokenizer evaluate rank).
Proof.
  intros split file_path. split; [by destruct evaluate|]. split; [|split].
  - unfold get_dataset, TextDataset_new, bind, extcall, ret.
    fold split file_path. cbn [env trace].
    by destruct (TextDataset_init W (env st) tokenizer split file_path
                   (block_size args) rank) as [[examples|ex] e'].
  - intros ds. unfold get_dataset, TextDataset_new, bind, extcall, ret.
    fold split file_path. cbn [env trace].
    destruct (TextDataset_init W (env st) tokenizer split file_path
                (block_size args) rank) as [[examples|ex] e']; cbn [fst];
      intros Hds; [|discriminate Hds].
    by injection Hds as <-.
  - intros args' Hbs Hfile. unfold get_dataset. rewrite Hbs.
    destruct evaluate; by rewrite Hfile.
Qed.


End Dataset.

(** ** The sentinel tokens *)

Section Sentinels.
Context {Env : Type} (W : World Env).

Lemma union_twice (X A B : gset string) : X ∪ A ∪ B ∪ A ∪ B = X ∪ A ∪ B.
Proof. apply set_eq. intros x. rewrite !elem_of_union. tauto. Qed.

Lemma doc_start_ne_doc_end : doc_start ≠ doc_end.
Proof. done. Qed.

(** What the two registrations of [main] do to a tokenizer without the
    sentinel tokens. *)
Lemma register_sentinels_fresh (t0 : Tokenizer) :
  vocab t0 !! doc_start = None → vocab t0 !! doc_end = None →
  vocab (snd (add_tokens [doc_end] true (snd (add_tokens [doc_start] true t0))))
  = <[doc_end := S (len t0)]> (<[doc_start := len t0]> (vocab t0)).
Proof.
  intros Hs He.
  destruct (add_tokens_fresh doc_start true t0 Hs) as [_ Hv1].
  pose proof (len_add_tokens_fresh doc_start true t0 Hs) as Hlen1.
  assert (vocab (snd (add_tokens [doc_start] true t0)) !! doc_end = None) as He1.
  { rewrite Hv1, lookup_insert_ne; [done|apply doc_start_ne_doc_end]. }
  destruct (add_tokens_fresh doc_end true _ He1) as [_ ->].
  by rewrite Hlen1, Hv1.
Qed.

(** The trainer of a run is built from the loaded model and tokenizer:
    the tokenizer after the two registrations, and the model resized to
    the length of that tokenizer. *)
Lemma main_trainer_link e model_args data_args training_args :
  parse_args_into_dataclasses W e = Ok (model_args, data_args, training_args) →
  match first_of trainer_built (trace (snd (main W (initial e)))) with
  | Some t =>
      ∃ m0 t0 env',
        first_of model_loaded (trace (snd (main W (initial e)))) = Some m0
        ∧ first_of tokenizer_loaded (trace (snd (main W (initial e)))) = Some t0
        ∧ dc_tokenizer (tr_data_collator t)
          = snd (add_tokens [doc_end] true (snd (add_tokens [doc_start] true t0)))
        ∧ ds_tokenizer (tr_train_dataset t) = dc_tokenizer (tr_data_collator t)
        ∧ tr_model t
          = resize_token_embeddings (init_weights W env')
              (len (dc_tokenizer (tr_data_collator t))) m0
  | None => True
  end.
Proof.
  intros Hp. destruct (main W (initial e)) as [r st'] eqn:Hrun. cbn [snd].
  run_script Hp Hrun r st';
    cbn [first_of trainer_built model_loaded tokenizer_loaded];
    try exact I; do 3 eexists; repeat split; reflexivity.
Qed.

(** C5, as amended.  In a run that loads a tokenizer [t0] without the two
    sentinel tokens and a model [m0], and gets as far as building the
    trainer: the tokenizer handed on (to the collator and the data set)
    has exactly two more entries than [t0], namely [<doc-s>] and
    [</doc-s>], both marked special, and the entries of [t0] keep their
    ids; the embedding matrix of the trainer's model has exactly
    [len(tokenizer)] rows; a row of [m0] with an index below
    [len(tokenizer)] is unchanged in it, which is every row of [m0] when
    [m0] has no more rows than the new vocabulary; and there is no row at
    an index from [len(tokenizer)] on, so the rows that a larger [m0] has
    there are dropped. *)
Theorem sentinels_registered_and_resized e model_args data_args training_args t0 m0 t :
  parse_args_into_dataclasses W e = Ok (model_args, data_args, training_args) →
  first_of tokenizer_loaded (trace (snd (main W (initial e)))) = Some t0 →
  first_of model_loaded (trace (snd (main W (initial e)))) = Some m0 →
  first_of trainer_built (trace (snd (main W (initial e)))) = Some t →
  vocab t0 !! doc_start = None → vocab t0 !! doc_end = None →
  let tokenizer := dc_tokenizer (tr_data_collator t) in
  let model := tr_model t in
  len tokenizer = (len t0 + 2)%nat
  ∧ (∀ s, is_Some (vocab tokenizer !! s)
          ↔ s = doc_start ∨ s = doc_end ∨ is_Some (vocab t0 !! s))
  ∧ (∀ s i, vocab t0 !! s = Some i → vocab tokenizer !! s = Some i)
  ∧ doc_start ∈ special_tokens tokenizer ∧ doc_end ∈ special_tokens tokenizer
  ∧ ds_tokenizer (tr_train_dataset t) = tokenizer
  ∧ length (word_embeddings model) = len tokenizer
  ∧ (∀ i row, (i < len tokenizer)%nat → word_embeddings m0 !! i = Some row →
              word_embeddings model !! i = Some row)
  ∧ ((length (word_embeddings m0) ≤ len tokenizer)%nat →
     ∀ i row, word_embeddings m0 !! i = Some row →
              word_embeddings model !! i = Some row)
  ∧ (∀ i, (len tokenizer ≤ i)%nat → word_embeddings model !! i = None).
Proof.
  intros Hp Htok Hmodel Htrainer Hs He tokenizer model.
  pose proof (main_trainer_link _ _ _ _ Hp) as Hlink.
  rewrite Htrainer, Htok, Hmodel in Hlink.
  destruct Hlink as (m0' & t0' & env' & [= <-] & [= <-] & Hdc & Hds & Hm).
  fold tokenizer in Hdc, Hds, Hm. fold model in Hm.
  pose proof (register_sentinels_fresh t0 Hs He) as Hv. rewrite <- Hdc in Hv.
  assert (len tokenizer = (len t0 + 2)%nat) as Hlen.
  { unfold len at 1. rewrite Hv.
    rewrite map_size_insert_None.
    - rewrite map_size_insert_None by done. unfold len. lia.
    - rewrite lookup_insert_ne; [done|apply doc_start_ne_doc_end]. }
  split; [exact Hlen|]. split; [|split; [|split; [|split; [|split]]]].
  - intros s. rewrite Hv. unfold is_Some.
    setoid_rewrite lookup_insert_Some. setoid_rewrite lookup_insert_Some.
    split.
    + intros [i [[<- _]|[_ [[<- _]|[_ Hi]]]]]; eauto.
    + intros [->|[->|[i Hi]]].
      * exists (len t0). right. split; [apply not_eq_sym, doc_start_ne_doc_end|].
        by left.
      * exists (S (len t0)). by left.
      * exists i. right. split; [intros <-; congruence|].
        right. split; [intros <-; congruence|done].
  - intros s i Hi. rewrite Hv.
    rewrite lookup_insert_ne by (intros <-; congruence).
    by rewrite lookup_insert_ne by (intros <-; congruence).
  - rewrite Hdc, !add_tokens_special, !elem_of_union, !elem_of_list_to_set,
      !list_elem_of_singleton. tauto.
  - rewrite Hdc, !add_tokens_special, !elem_of_union, !elem_of_list_to_set,
      !list_elem_of_singleton. tauto.
  - exact Hds.
  - assert (length (word_embeddings model) = len tokenizer) as Hrows.
    { rewrite Hm. apply resize_token_embeddings_length. }
    split; [exact Hrows|]. split; [|split].
    + intros i row Hi Hrow. rewrite Hm.
      by apply resize_token_embeddings_lookup.
    + intros Hle i row Hrow. rewrite Hm.
      apply resize_token_embeddings_lookup; [|done].
      apply lookup_lt_Some in Hrow. lia.
    + intros i Hi. apply lookup_ge_None. lia.
Qed.

(** C6. Registering is idempotent.  Adding a token that is in the
    vocabulary adds nothing: no id is created, the vocabulary and its size
    are unchanged.  So the two registrations of [main], applied to a
    tokenizer that has been through them, change nothing.  And a
    registration never makes two tokens share an id. *)
Theorem add_tokens_idempotent (t : Tokenizer) :
  (∀ tok special, is_Some (vocab t !! tok) →
     fst (add_tokens [tok] special t) = 0%nat
     ∧ vocab (snd (add_tokens [tok] special t)) = vocab t
     ∧ len (snd (add_tokens [tok] special t)) = len t)
  ∧ (let register := λ t, snd (add_tokens [doc_end] true
                                 (snd (add_tokens [doc_start] true t))) in
     register (register t) = register t)
  ∧ (tokenizer_wf t → ∀ tok special, tokenizer_wf (snd (add_tokens [tok] special t))).
Proof.
  split; [|split].
  - intros tok special Hin.
    destruct (add_tokens_present [tok] special t) as [Hn Hv].
    { by repeat constructor. }
    split; [done|]. split; [done|]. unfold len. by rewrite Hv.
  - intros register. unfold register.
    set (t1 := snd (add_tokens [doc_start] true t)).
    set (t2 := snd (add_tokens [doc_end] true t1)).
    assert (is_Some (vocab t2 !! doc_start)) as Hs.
    { destruct (add_tokens_single_lookup doc_start true t) as [i Hi].
      exists i. by apply add_tokens_single_keeps. }
    assert (is_Some (vocab t2 !! doc_end)) as He
      by apply add_tokens_single_lookup.
    destruct (add_tokens_present [doc_start] true t2) as [_ Hv3].
    { by repeat constructor. }
    set (t3 := snd (add_tokens [doc_start] true t2)) in *.
    destruct (add_tokens_present [doc_end] true t3) as [_ Hv4].
    { repeat constructor. by rewrite Hv3. }
    set (t4 := snd (add_tokens [doc_end] true t3)) in *.
    assert (special_tokens t4 = special_tokens t2) as Hsp.
    { unfold t4, t3, t2. rewrite !add_tokens_special. apply union_twice. }
    destruct t4 as [v4 s4], t2 as [v2 s2]. cbn in *. congruence.
  - intros Hwf tok special. by apply tokenizer_wf_add_tokens.
Qed.

End Sentinels.

(** ** The checkpoint *)

(** C7. Whatever the parsed [model_name_or_path], [config_name] and
    [tokenizer_name] are, every load of the model and of the tokenizer in a
    run of [main] asks for 'allenai/longformer-base-4096' and gets what the
    world answers for that identifier (after the seeding, for the model, and
    after the model's load, for the tokenizer).  Both loads happen once the
    run is past the startup checks (the tokenizer's when the model's
    succeeded).  So a run in a world that differs in the parsed model
    arguments alone loads the same artifacts. *)
Theorem checkpoint_hard_coded {Env} (W : World Env) e model_args data_args training_args :
  parse_args_into_dataclasses W e = Ok (model_args, data_args, training_args) →
  let model_answer :=
    fst (Model_from_pretrained W (set_seed W e (seed training_args)) checkpoint_id) in
  let tokenizer_answer :=
    fst (Tokenizer_from_pretrained W
           (snd (Model_from_pretrained W (set_seed W e (seed training_args))
                   checkpoint_id))
           checkpoint_id) in
  (∀ id r, In (EvModelFromPretrained id r) (trace (snd (main W (initial e)))) →
           id = checkpoint_id ∧ r = model_answer)
  ∧ (∀ id r, In (EvTokenizerFromPretrained id r) (trace (snd (main W (initial e)))) →
             id = checkpoint_id ∧ r = tokenizer_answer)
  ∧ (is_Some (first_of logging_configured (trace (snd (main W (initial e))))) →
     In (EvModelFromPretrained checkpoint_id model_answer)
       (trace (snd (main W (initial e))))
     ∧ (is_ok model_answer = true →
        In (EvTokenizerFromPretrained checkpoint_id tokenizer_answer)
          (trace (snd (main W (initial e))))))
  ∧ (∀ (W' : World Env) model_args',
       parse_args_into_dataclasses W' e = Ok (model_args', data_args, training_args) →
       set_seed W' = set_seed W →
       Model_from_pretrained W' = Model_from_pretrained W →
       Tokenizer_from_pretrained W' = Tokenizer_from_pretrained W →
       (∀ id r, In (EvModelFromPretrained id r) (trace (snd (main W' (initial e)))) →
                id = checkpoint_id ∧ r = model_answer)
       ∧ (∀ id r, In (EvTokenizerFromPretrained id r) (trace (snd (main W' (initial e)))) →
                  id = checkpoint_id ∧ r = tokenizer_answer)).
Proof.
  intros Hp model_answer tokenizer_answer.
  pose proof (main_events W _ _ _ _ Hp) as Hall.
  rewrite List.Forall_forall in Hall.
  assert (∀ id r, In (EvModelFromPretrained id r) (trace (snd (main W (initial e)))) →
                  id = checkpoint_id ∧ r = model_answer) as Hmodel.
  { intros id r Hin. exact (Hall _ Hin). }
  assert (∀ id r, In (EvTokenizerFromPretrained id r) (trace (snd (main W (initial e)))) →
                  id = checkpoint_id ∧ r = tokenizer_answer) as Htok.
  { intros id r Hin. exact (Hall _ Hin). }
  split; [exact Hmodel|]. split; [exact Htok|]. split.
  - intros Hconf. destruct (main_progress W _ _ _ _ Hp) as (_ & Hload & Hnext & _).
    destruct (Hload Hconf) as [r Hr].
    destruct (Hmodel _ _ Hr) as [_ ->]. split; [exact Hr|].
    intros Hok. destruct Hnext as [r' Hr'].
    + destruct model_answer as [m|ex] eqn:Hans; [|discriminate Hok].
      by eapply first_of_In.
    + by destruct (Htok _ _ Hr') as [_ ->].
  - intros W' model_args' Hp' Hseed Hml Htl.
    pose proof (main_events W' _ _ _ _ Hp') as Hall'.
    rewrite List.Forall_forall in Hall'. rewrite Hseed, Hml, Htl in Hall'.
    split; intros id r Hin; exact (Hall' _ Hin).
Qed.

(** ** Training, evaluation and the report *)

Section Evaluation.
Context {Env : Type} (W : World Env).

(** A run that returns has trained, then evaluated, then written one line
    to the results file between opening and closing it. *)
Lemma main_success_trace e model_args data_args training_args results :
  parse_args_into_dataclasses W e = Ok (model_args, data_args, training_args) →
  fst (main W (initial e)) = Ok results →
  let path := os_path_join (output_dir training_args) "eval_results_lm.txt" in
  ∃ t model_path d line,
    first_of evaluated (trace (snd (main W (initial e)))) = Some d
    ∧ precedes (EvTrain t model_path (Ok tt)) (EvEvaluate t (Ok d))
        (trace (snd (main W (initial e))))
    ∧ precedes (EvEvaluate t (Ok d)) (EvOpen path "w" (Ok tt))
        (trace (snd (main W (initial e))))
    ∧ precedes (EvOpen path "w" (Ok tt)) (EvWrite path line (Ok tt))
        (trace (snd (main W (initial e))))
    ∧ precedes (EvWrite path line (Ok tt)) (EvClose path (Ok tt))
        (trace (snd (main W (initial e)))).
Proof.
  intros Hp. destruct (main W (initial e)) as [r st'] eqn:Hrun. cbn [fst snd].
  run_script Hp Hrun r st'; intros Hr; try discriminate Hr;
    do 4 eexists; cbn [first_of evaluated];
    (split; [reflexivity|]); repeat split; find_precedes.
Qed.

(** The outcome of a run that has evaluated: what the loss in the
    evaluation's answer makes of it. *)
Lemma main_outcome e model_args data_args training_args d :
  parse_args_into_dataclasses W e = Ok (model_args, data_args, training_args) →
  first_of evaluated (trace (snd (main W (initial e)))) = Some d →
  let path := os_path_join (output_dir training_args) "eval_results_lm.txt" in
  let nothing_written :=
    Forall (λ ev, match ev with
                  | EvOpen _ _ _ | EvWrite _ _ _ => False
                  | _ => True
                  end) (trace (snd (main W (initial e)))) in
  match d !! "loss" with
  | None => fst (main W (initial e)) = Raise (KeyError "loss") ∧ nothing_written
  | Some loss =>
      match math_exp (libm_exp W) loss with
      | Raise ex => fst (main W (initial e)) = Raise ex ∧ nothing_written
      | Ok perplexity =>
          ∀ results, fst (main W (initial e)) = Ok results →
            results = {[ "perplexity" := perplexity ]}
            ∧ written path (trace (snd (main W (initial e))))
              = ["perplexity" ++ " = " ++ str_float W perplexity ++ newline]
      end
  end.
Proof.
  intros Hp. destruct (main W (initial e)) as [r st'] eqn:Hrun. cbn [fst snd].
  run_script Hp Hrun r st'; cbn [first_of evaluated];
    intros Hd; try discriminate Hd; injection Hd as <-;
    repeat match goal with
           | H : _ !! _ = _ |- _ => rewrite H
           | H : math_exp _ _ = _ |- _ => rewrite H
           end;
    try (split; [reflexivity|by repeat constructor]);
    intros results Hr; try discriminate Hr; injection Hr as <-;
    (split; [apply map_union_empty|]);
    cbn [written]; by rewrite decide_True.
Qed.

End Evaluation.

(** ** The report, for any mapping of metrics *)

Section Report.
Context {Env : Type} (W : World Env).

Lemma written_app path (l1 l2 : list Event) :
  written path (l1 ++ l2) = (written path l1 ++ written path l2)%list.
Proof.
  induction l1 as [|ev l1 IH]; [done|].
  destruct ev; cbn [written app]; try done.
  destruct r; [|done]. case_decide; [|done]. by rewrite IH.
Qed.

Lemma sorted_keys_sorted {V} (d : gmap string V) :
  StronglySorted String.le (sorted_keys d).
Proof. apply StronglySorted_merge_sort; apply _. Qed.

Lemma sorted_keys_elem {V} (d : gmap string V) (k : string) :
  k ∈ sorted_keys d ↔ is_Some (d !! k).
Proof.
  unfold sorted_keys. rewrite merge_sort_Permutation.
  rewrite list_elem_of_fmap. split.
  - intros [[k' v] [-> Hin]]. apply elem_of_map_to_list in Hin. by eauto.
  - intros [v Hv]. exists (k, v). split; [done|]. by apply elem_of_map_to_list.
Qed.

Lemma sorted_keys_NoDup {V} (d : gmap string V) : NoDup (sorted_keys d).
Proof.
  unfold sorted_keys. rewrite merge_sort_Permutation.
  apply NoDup_fst_map_to_list.
Qed.

(** The loop of the report writes the lines of the keys it is given, in
    that order. *)
Lemma for_report_lines path (result : gmap string float) keys (st : St Env) :
  let body := λ key : string,
    (v ← dict_get result key;
     logger_info "  %s = %s" [key; str_float W v] ;;
     v ← dict_get result key;
     writer_write W path (key ++ " = " ++ str_float W v ++ newline))%py in
  fst (for_ keys body st) = Ok tt →
  written path (trace (snd (for_ keys body st)))
  = (written path (trace st) ++ map (report_line W result) keys)%list.
Proof.
  intros body. revert st.
  induction keys as [|k keys IH]; intros st Hok.
  { cbn. by rewrite app_nil_r. }
  cbn [for_] in *. unfold bind at 1 in Hok. unfold bind at 1.
  destruct (body k st) as [[[]|ex] st1] eqn:Hbody; [|discriminate Hok].
  rewrite (IH st1 Hok). cbn [map].
  assert (written path (trace st1)
          = (written path (trace st) ++ [report_line W result k])%list) as ->;
    [|by rewrite <- app_assoc].
  revert Hbody. unfold body, dict_get, report_line.
  destruct (result !! k) as [v|]; [|discriminate].
  unfold bind, ret, logger_info, writer_write, extcall_none, extcall, log_event.
  cbn [env trace default].
  destruct (file_write W (env st) path _) as [[[]|ex] e']; cbn [returns_none];
    intros [= <-]. cbn [trace].
  rewrite !written_app. cbn [written]. rewrite decide_True by done.
  by rewrite app_nil_r.
Qed.

(** The report writes one line per metric, the keys in sorted order. *)
Lemma write_eval_results_lines path (result : gmap string float) (st : St Env) :
  fst (write_eval_results W path result st) = Ok tt →
  written path (trace (snd (write_eval_results W path result st)))
  = (written path (trace st) ++ map (report_line W result) (sorted_keys result))%list.
Proof.
  unfold write_eval_results, with_open_w.
  match goal with
  | |- context [for_ ?keys ?body] =>
      pose proof (for_report_lines path result keys) as Hloop;
      cbv zeta in Hloop; set (loop := for_ keys body) in *
  end.
  unfold bind, extcall_none, extcall, logger_info, log_event.
  cbn [env trace].
  destruct (os_open W (env st) path "w") as [[[]|ex] e1]; cbn [returns_none];
    [|discriminate].
  match goal with
  | |- context [loop ?st1] =>
      specialize (Hloop st1); destruct (loop st1) as [rb st2]
  end.
  cbn [fst snd env trace] in *.
  destruct (file_close W (env st2) path) as [[[]|ex] e3]; cbn [returns_none fst snd];
    [|discriminate].
  intros ->. cbn [trace]. rewrite written_app, (Hloop eq_refl), !written_app.
  cbn [written]. by rewrite !app_nil_r.
Qed.

End Report.

(** ** Perplexity *)

Section Perplexity.
Context {Env : Type} (W : World Env).

(** What [math.exp] returns is what the C library's [exp] returned, and
    an infinity only for an infinite argument. *)
Lemma math_exp_Ok (f : float → float) (x p : float) :
  math_exp f x = Ok p →
  p = f x ∧ (is_infinity p = true → is_finite x = false).
Proof.
  unfold math_exp.
  destruct (is_nan (f x) && negb (is_nan x)); [discriminate|].
  destruct (is_infinity (f x) && is_finite x) eqn:Hrange; [discriminate|].
  intros [= <-]. split; [done|].
  intros Hinf. by rewrite Hinf in Hrange.
Qed.

(** When [exp] overflows on a finite argument, [math.exp] raises. *)
Lemma math_exp_overflow (f : float → float) (x : float) :
  is_finite x = true → f x = infinity →
  math_exp f x = Raise (OverflowError "math range error").
Proof. intros Hx Hfx. unfold math_exp. by rewrite Hfx, Hx. Qed.

(** [math.exp] of a number that is neither a NaN nor an infinity is that
    number's [exp], when that is finite. *)
Lemma math_exp_finite (f : float → float) (x : float) :
  is_finite (f x) = true → math_exp f x = Ok (f x).
Proof.
  unfold math_exp, is_finite. intros Hfin.
  apply negb_true_iff, orb_false_iff in Hfin as [-> ->]. reflexivity.
Qed.

(** The reference [exp] conforms. *)
Lemma Sim_exp_conforms : exp_conforms Sim.exp.
Proof.
  split; [reflexivity|]. split; [reflexivity|]. split; [reflexivity|].
  split; [reflexivity|]. split; [|by left].
  intros x Hnan. unfold Sim.exp. by rewrite Hnan.
Qed.

(** What a conforming [exp] gives [math.exp] at 0.0, 2.0 and [+inf]. *)
Lemma math_exp_conforms (f : float → float) :
  exp_conforms f →
  math_exp f 0 = Ok 1%float
  ∧ (∃ p, math_exp f 2 = Ok p
          ∧ (7.3890560989236498 <=? p)%float = true
          ∧ (p <=? 7.3890560989370897)%float = true)
  ∧ math_exp f infinity = Ok infinity.
Proof.
  intros (H0 & _ & Hinf & _ & _ & Hacc). split; [|split].
  - unfold math_exp. by rewrite H0.
  - exists (f 2%float). destruct (Hacc 2%float eq_refl) as [Heq|Hband].
    + rewrite math_exp_finite; rewrite Heq;
        [split; [reflexivity|split; vm_compute; reflexivity]|vm_compute; reflexivity].
    + unfold within_tolerance in Hband.
      apply andb_true_iff in Hband as [Hband Hhi].
      apply andb_true_iff in Hband as [Hfin Hlo].
      split; [by apply math_exp_finite|]. split; [exact Hlo|exact Hhi].
  - unfold math_exp. by rewrite Hinf.
Qed.


End Perplexity.

(** ** The results *)

Section Results.
Context {Env : Type} (W : World Env).



End Results.

(** * The script at work in the simulated world *)

Lemma eval_check_fatal_witness :
  fst (main (Sim.world_of (Sim.args "out" true true false) 0) (initial Sim.env0))
  = Raise (ValueError eval_file_msg)
  ∧ ∃ r rest,
      trace (snd (main (Sim.world_of (Sim.args "out" true false false) 0) (initial Sim.env0)))
      = EvParseArgs (Ok (Sim.args "out" true false false)) :: EvPathExists "out" r :: rest.
Proof.
  split.
  - destruct (eval_check_fatal (Sim.world_of (Sim.args "out" true true false) 0) Sim.env0
                _ _ _ eq_refl) as [Hfatal _].
    destruct (Hfatal eq_refl eq_refl) as [Hrun _].
    rewrite Hrun. reflexivity.
  - destruct (eval_check_fatal (Sim.world_of (Sim.args "out" true false false) 0) Sim.env0
                _ _ _ eq_refl) as [_ Hpass].
    apply Hpass. left. reflexivity.
Defined.

Lemma output_dir_check_fatal_witness :
  main (Sim.world_of (Sim.args "old" true false false) 0) (initial Sim.env0)
  = (Raise (ValueError (output_dir_msg "old")),
     {| env := Sim.env0;
        trace := [EvParseArgs (Ok (Sim.args "old" true false false));
                  EvPathExists "old" true;
                  EvListdir "old" (Ok ["checkpoint-500"])] |})
  ∧ ∃ level rest,
      trace (snd (main (Sim.world_of (Sim.args "old" true false true) 0) (initial Sim.env0)))
      = EvParseArgs (Ok (Sim.args "old" true false true))
          :: EvPathExists "old" true :: EvListdir "old" (Ok ["checkpoint-500"])
          :: EvBasicConfig level :: rest.
Proof.
  split.
  - destruct (output_dir_check_fatal (Sim.world_of (Sim.args "old" true false false) 0)
                Sim.env0 _ _ _ ["checkpoint-500"] eq_refl) as [Hfatal _];
      [vm_compute; reflexivity|vm_compute; reflexivity|discriminate|reflexivity|].
    destruct (Hfatal eq_refl) as (_ & _ & Hrun).
    apply Hrun. left. reflexivity.
  - destruct (output_dir_check_fatal (Sim.world_of (Sim.args "old" true false true) 0)
                Sim.env0 _ _ _ ["checkpoint-500"] eq_refl) as [_ Hpass];
      [vm_compute; reflexivity|vm_compute; reflexivity|discriminate|reflexivity|].
    apply Hpass; [reflexivity|]. left. reflexivity.
Defined.

Lemma get_dataset_selects_file_witness :
  trace (snd (get_dataset (Sim.world_of (Sim.args "out" true false false) 0)
                DataTrainingArguments_default Sim.checkpoint_tokenizer true 0
                (initial Sim.env0)))
  = [EvTextDataset Sim.checkpoint_tokenizer "dev" None (-1) 0
       (Raise (OtherError "TypeError" "file_path"))]
  ∧ trace (snd (get_dataset (Sim.world_of (Sim.args "out" true false false) 0)
                  DataTrainingArguments_default Sim.checkpoint_tokenizer false 0
                  (initial Sim.env0)))
    = [EvTextDataset Sim.checkpoint_tokenizer "train" (Some "train.txt.src") (-1) 0
         (Ok [[0; 2; 1]%nat])].
Proof.
  split.
  - destruct (get_dataset_selects_file (Sim.world_of (Sim.args "out" true false false) 0)
                DataTrainingArguments_default Sim.checkpoint_tokenizer true 0
                (initial Sim.env0)) as (_ & Htrace & _).
    exact Htrace.
  - destruct (get_dataset_selects_file (Sim.world_of (Sim.args "out" true false false) 0)
                DataTrainingArguments_default Sim.checkpoint_tokenizer false 0
                (initial Sim.env0)) as (_ & Htrace & _).
    exact Htrace.
Defined.


Lemma sentinels_registered_and_resized_witness :
  ∃ t,
    first_of trainer_built
      (trace (snd (main (Sim.world_of (Sim.args "out" true false false) 0) (initial Sim.env0))))
    = Some t
    ∧ len (dc_tokenizer (tr_data_collator t)) = 5%nat
    ∧ length (word_embeddings (tr_model t)) = 5%nat
    ∧ word_embeddings (tr_model t) !! 2%nat = Some [0.125%float].
Proof.
  destruct (first_of trainer_built
              (trace (snd (main (Sim.world_of (Sim.args "out" true false false) 0)
                             (initial Sim.env0))))) as [t|] eqn:Ht;
    [|vm_compute in Ht; discriminate Ht].
  exists t. split; [reflexivity|].
  destruct (sentinels_registered_and_resized
              (Sim.world_of (Sim.args "out" true false false) 0) Sim.env0 _ _ _
              Sim.checkpoint_tokenizer Sim.checkpoint_model t eq_refl)
    as (Hlen & _ & _ & _ & _ & _ & Hrows & Hkept & _);
    [vm_compute; reflexivity|vm_compute; reflexivity|exact Ht
    |vm_compute; reflexivity|vm_compute; reflexivity|].
  split; [exact Hlen|]. split; [by rewrite Hrows, Hlen|].
  apply Hkept; [rewrite Hlen; vm_compute; lia|reflexivity].
Defined.

Lemma padded_checkpoint_loses_rows :
  first_of tokenizer_loaded
    (trace (snd (main Scenario.padded_checkpoint (initial Sim.env0))))
  = Some Sim.checkpoint_tokenizer
  ∧ vocab Sim.checkpoint_tokenizer !! doc_start = None
  ∧ vocab Sim.checkpoint_tokenizer !! doc_end = None
  ∧ first_of model_loaded
      (trace (snd (main Scenario.padded_checkpoint (initial Sim.env0))))
    = Some Scenario.padded_model
  ∧ word_embeddings Scenario.padded_model !! 5%nat = Some [0.625%float]
  ∧ (λ t, (len (dc_tokenizer (tr_data_collator t)),
           length (word_embeddings (tr_model t)),
           word_embeddings (tr_model t) !! 5%nat))
    <$> first_of trainer_built
          (trace (snd (main Scenario.padded_checkpoint (initial Sim.env0))))
    = Some (5%nat, 5%nat, None).
Proof. repeat split; vm_compute; reflexivity. Qed.

Lemma add_tokens_idempotent_witness :
  fst (add_tokens ["</s>"] true Sim.checkpoint_tokenizer) = 0%nat
  ∧ len (snd (add_tokens ["</s>"] true Sim.checkpoint_tokenizer)) = 3%nat.
Proof.
  destruct (add_tokens_idempotent Sim.checkpoint_tokenizer) as [Hpresent _].
  destruct (Hpresent "</s>" true) as (Hn & _ & Hlen).
  - vm_compute. by eexists.
  - split; [exact Hn|]. rewrite Hlen. vm_compute. reflexivity.
Defined.

Lemma checkpoint_hard_coded_witness :
  In (EvModelFromPretrained checkpoint_id (Ok Sim.checkpoint_model))
    (trace (snd (main (Sim.world_of (Sim.args "out" true false false) 0) (initial Sim.env0))))
  ∧ In (EvTokenizerFromPretrained checkpoint_id (Ok Sim.checkpoint_tokenizer))
      (trace (snd (main (Sim.world_of (Sim.args "out" true false false) 0) (initial Sim.env0)))).
Proof.
  destruct (checkpoint_hard_coded (Sim.world_of (Sim.args "out" true false false) 0)
              Sim.env0 _ _ _ eq_refl) as (_ & _ & Hloads & _).
  destruct Hloads as [Hmodel Htok]; [vm_compute; by eexists|].
  split; [exact Hmodel|]. apply Htok. reflexivity.
Defined.





(** * The run as a whole *)

(** ** What the script hands to its collaborators *)

Section Wiring.
Context {Env : Type} (W : World Env).

Lemma has_sentinels_registered (t : Tokenizer) :
  has_sentinels (snd (add_tokens [doc_end] true (snd (add_tokens [doc_start] true t)))).
Proof.
  split; [|split; [|split]].
  - destruct (add_tokens_single_lookup doc_start true t) as [i Hi].
    exists i. by apply add_tokens_single_keeps.
  - apply add_tokens_single_lookup.
  - rewrite !add_tokens_special, !elem_of_union, !elem_of_list_to_set,
      !list_elem_of_singleton. tauto.
  - rewrite !add_tokens_special, !elem_of_union, !elem_of_list_to_set,
      !list_elem_of_singleton. tauto.
Qed.

(** What the script hands to its collaborators, in any run. *)
Lemma main_wiring e model_args data_args training_args :
  parse_args_into_dataclasses W e = Ok (model_args, data_args, training_args) →
  Forall (λ ev,
            match ev with
            | EvPathExists p _ | EvListdir p _ => p = output_dir training_args
            | EvPathIsdir p _ => model_name_or_path model_args = Some p
            | EvBasicConfig level =>
                level = if bool_decide (local_rank training_args = -1)
                           || bool_decide (local_rank training_args = 0)
                        then INFO else WARN
            | EvSetSeed s => s = seed training_args
            | EvTextDataset tok _ _ _ _ _ => has_sentinels tok
            | EvDataCollator c _ =>
                has_sentinels (dc_tokenizer c)
                ∧ dc_mlm c = mlm data_args
                ∧ dc_mlm_probability c = mlm_probability data_args
                ∧ dc_globalize_special_tokens c = globalize_special_tokens data_args
            | EvTrainer t _ | EvTrain t _ _ | EvEvaluate t _ =>
                tr_args t = training_args
                ∧ tr_prediction_loss_only t = true
                ∧ has_sentinels (dc_tokenizer (tr_data_collator t))
                ∧ ds_tokenizer (tr_train_dataset t) = dc_tokenizer (tr_data_collator t)
                ∧ length (word_embeddings (tr_model t))
                  = len (dc_tokenizer (tr_data_collator t))
                ∧ config_vocab_size (tr_model t)
                  = len (dc_tokenizer (tr_data_collator t))
            | EvSavePretrained tok dir _ =>
                has_sentinels tok ∧ dir = output_dir training_args
            | EvOpen path mode _ =>
                path = os_path_join (output_dir training_args) "eval_results_lm.txt"
                ∧ mode = "w"
            | EvWrite path _ _ | EvClose path _ =>
                path = os_path_join (output_dir training_args) "eval_results_lm.txt"
            | EvLog WARN fmt args =>
                fmt = "Process rank: %s, device: %s, n_gpu: %s, distributed training: %s, 16-bits training: %s"
                ∧ args = [str_int (local_rank training_args); device training_args;
                          str_int (n_gpu training_args);
                          str_bool (negb (bool_decide (local_rank training_args = -1)));
                          str_bool (fp16 training_args)]
            | EvLog INFO fmt args =>
                match args with
                | [] => fmt = "*** Evaluate ***" ∨ fmt = "***** Eval results *****"
                | [a] => fmt = "Training/evaluation parameters %s"
                         ∧ a = repr_TrainingArguments W training_args
                | [key; _] => fmt = "  %s = %s" ∧ key = "perplexity"
                | _ => False
                end
            | _ => True
            end)
    (trace (snd (main W (initial e)))).
Proof.
  intros Hp. destruct (main W (initial e)) as [r st'] eqn:Hrun. cbn [snd].
  run_script Hp Hrun r st';
    repeat (apply List.Forall_cons;
            [first [exact I | reflexivity | left; reflexivity | right; reflexivity
                   | apply has_sentinels_registered
                   | repeat split;
                     first [reflexivity | apply has_sentinels_registered
                           | apply resize_token_embeddings_length]]|]);
    apply List.Forall_nil.
Qed.


(** The two errors of [math.exp]. *)
Lemma math_exp_Raise (f : float → float) (x : float) (ex : Exn) :
  math_exp f x = Raise ex →
  ex = ValueError "math domain error" ∨ ex = OverflowError "math range error".
Proof.
  unfold math_exp.
  destruct (is_nan (f x) && negb (is_nan x)); [intros [= <-]; by left|].
  destruct (is_infinity (f x) && is_finite x); [intros [= <-]; by right|].
  discriminate.
Qed.

(** The course of any run: the collaborators are called in the order of
    the script, each at most once; nothing but the closing of the results
    file follows a failure, and the failure is what [main] raises; the
    exceptions of the script itself are five; training resumes from
    [model_name_or_path] when that is a directory; the tokenizer is saved
    when the trainer says it is the world master. *)
Lemma main_course e model_args data_args training_args :
  parse_args_into_dataclasses W e = Ok (model_args, data_args, training_args) →
  increasing (stages (trace (snd (main W (initial e))))) = true
  ∧ match first_failure (trace (snd (main W (initial e)))) with
    | Some (ex, rest) =>
        (rest = [] ∧ fst (main W (initial e)) = Raise ex)
        ∨ (∃ path rc,
             rest = [EvClose path rc]
             ∧ fst (main W (initial e))
               = Raise (match rc with Raise ex' => ex' | Ok _ => ex end))
    | None =>
        match fst (main W (initial e)) with
        | Ok _ => True
        | Raise ex =>
            ex = ValueError eval_file_msg
            ∨ ex = ValueError (output_dir_msg (output_dir training_args))
            ∨ ex = KeyError "loss"
            ∨ ex = ValueError "math domain error"
            ∨ ex = OverflowError "math range error"
        end
    end
  ∧ match first_of train_called (trace (snd (main W (initial e)))) with
    | Some model_path =>
        match model_name_or_path model_args with
        | Some p =>
            ∃ isdir,
              first_of isdir_answered (trace (snd (main W (initial e))))
              = Some (p, isdir)
              ∧ model_path = (if isdir then Some p else None)
        | None =>
            model_path = None
            ∧ first_of isdir_answered (trace (snd (main W (initial e)))) = None
        end
    | None => True
    end
  ∧ match first_of master_answered (trace (snd (main W (initial e)))) with
    | Some true =>
        ∃ t, first_of saved (trace (snd (main W (initial e))))
             = Some (t, output_dir training_args)
    | _ => first_of saved (trace (snd (main W (initial e)))) = None
    end.
Proof.
  intros Hp. destruct (main W (initial e)) as [r st'] eqn:Hrun. cbn [fst snd].
  run_script Hp Hrun r st';
    cbn [stages stage first_failure event_error first_of train_called
         isdir_answered master_answered saved];
    (split; [reflexivity|]);
    (split;
     [first [ exact I
            | left; split; reflexivity
            | right; do 2 eexists; split; reflexivity
            | solve [repeat first [reflexivity | left; reflexivity | right]]
            | match goal with
              | H : math_exp _ _ = Raise _ |- _ =>
                  destruct (math_exp_Raise _ _ _ H) as [-> | ->];
                  solve [repeat first [reflexivity | left; reflexivity | right]]
              end ]|]);
    (split; [first [exact I | split; reflexivity | eexists; split; reflexivity]|]);
    first [reflexivity | eexists; reflexivity].
Qed.

End Wiring.

(** ** The course of a run *)

Section Course.
Context {Env : Type} (W : World Env).

Lemma increasing_cons (n : nat) (l : list nat) :
  increasing (n :: l) = true → Forall (λ m, (n < m)%nat) l ∧ increasing l = true.
Proof.
  revert n. induction l as [|m l IH]; intros n Hinc; [by split|].
  cbn [increasing] in Hinc. apply andb_true_iff in Hinc as [Hnm Hl].
  apply Nat.ltb_lt in Hnm. split; [|exact Hl].
  constructor; [exact Hnm|].
  destruct (IH m Hl) as [Hall _].
  eapply Forall_impl; [exact Hall|]. intros k Hk. cbn in Hk. lia.
Qed.

Lemma increasing_StronglySorted (l : list nat) :
  increasing l = true → StronglySorted lt l.
Proof.
  induction l as [|n l IH]; intros Hinc; [constructor|].
  destruct (increasing_cons n l Hinc) as [Hall Hl].
  constructor; [by apply IH|exact Hall].
Qed.

Lemma stages_app (l1 l2 : list Event) :
  stages (l1 ++ l2) = (stages l1 ++ stages l2)%list.
Proof.
  induction l1 as [|ev l1 IH]; [done|].
  cbn [app stages]. destruct (stage ev); [|exact IH]. by rewrite IH.
Qed.

Lemma StronglySorted_lt_precedes (tr : list Event) (a b : Event) (i j : nat) :
  StronglySorted lt (stages tr) → precedes a b tr →
  stage a = Some i → stage b = Some j → (i < j)%nat.
Proof.
  intros Hsorted (l1 & l2 & l3 & ->) Ha Hb. revert Hsorted.
  rewrite stages_app. cbn [stages]. rewrite Ha, stages_app. cbn [stages].
  rewrite Hb. intros Hsorted.
  apply StronglySorted_app_1_r in Hsorted.
  apply StronglySorted_inv in Hsorted as [_ Hall].
  rewrite Forall_app in Hall. destruct Hall as [_ Hall].
  by apply Forall_inv in Hall.
Qed.

Lemma first_failure_None (tr : list Event) :
  first_failure tr = None → Forall (λ ev, event_error ev = None) tr.
Proof.
  induction tr as [|ev tr IH]; [constructor|].
  cbn [first_failure]. destruct (event_error ev) eqn:Hev; [discriminate|].
  intros Htr. constructor; [exact Hev|by apply IH].
Qed.

(** X1. The calls of a run occur in the order of the script, each at most
    once: the stages of the calls in the trace are strictly increasing, so
    of two calls in a trace the earlier one has the lower stage. *)
Theorem calls_in_script_order e model_args data_args training_args :
  parse_args_into_dataclasses W e = Ok (model_args, data_args, training_args) →
  StronglySorted lt (stages (trace (snd (main W (initial e)))))
  ∧ ∀ a b i j,
      precedes a b (trace (snd (main W (initial e)))) →
      stage a = Some i → stage b = Some j → (i < j)%nat.
Proof.
  intros Hp. destruct (main_course W _ _ _ _ Hp) as [Hinc _].
  apply increasing_StronglySorted in Hinc. split; [exact Hinc|].
  intros a b i j. by apply StronglySorted_lt_precedes.
Qed.

(** X2. No failure is swallowed and nothing runs after one.  After the
    first call that fails the trace has nothing more, or only the closing
    of the results file (when a write failed), and [main] raises the
    exception of that call, or the one of the closing when that fails too.
    So when [main] returns, no call has failed. *)
Theorem failure_stops_run e model_args data_args training_args :
  parse_args_into_dataclasses W e = Ok (model_args, data_args, training_args) →
  (∀ ex rest,
     first_failure (trace (snd (main W (initial e)))) = Some (ex, rest) →
     (rest = [] ∧ fst (main W (initial e)) = Raise ex)
     ∨ (∃ path rc,
          rest = [EvClose path rc]
          ∧ fst (main W (initial e))
            = Raise (match rc with Raise ex' => ex' | Ok _ => ex end)))
  ∧ (∀ results, fst (main W (initial e)) = Ok results →
       Forall (λ ev, event_error ev = None) (trace (snd (main W (initial e))))).
Proof.
  intros Hp. destruct (main_course W _ _ _ _ Hp) as (_ & Hfail & _).
  split.
  - intros ex rest Hfirst. by rewrite Hfirst in Hfail.
  - intros results Hr. apply first_failure_None.
    destruct (first_failure (trace (snd (main W (initial e)))))
      as [[ex rest]|]; [|done].
    destruct Hfail as [[_ Hraise]|(path & rc & _ & Hraise)]; congruence.
Qed.

(** X3. The exceptions of the script itself.  When [main] raises and no
    call to a collaborator has failed, the exception is the ValueError of
    one of the two startup checks, the KeyError for a missing "loss", or
    one of the two errors of [math.exp]. *)
Theorem own_exceptions e model_args data_args training_args ex :
  parse_args_into_dataclasses W e = Ok (model_args, data_args, training_args) →
  fst (main W (initial e)) = Raise ex →
  Forall (λ ev, event_error ev = None) (trace (snd (main W (initial e)))) →
  ex = ValueError eval_file_msg
  ∨ ex = ValueError (output_dir_msg (output_dir training_args))
  ∨ ex = KeyError "loss"
  ∨ ex = ValueError "math domain error"
  ∨ ex = OverflowError "math range error".
Proof.
  intros Hp Hraise Hnone. destruct (main_course W _ _ _ _ Hp) as (_ & Hfail & _).
  destruct (first_failure (trace (snd (main W (initial e)))))
    as [[ex' rest]|] eqn:Hfirst.
  - exfalso. clear Hfail. revert Hfirst Hnone.
    generalize (trace (snd (main W (initial e)))). intros tr.
    induction tr as [|ev tr IH]; [discriminate|].
    cbn [first_failure]. intros Hfirst Hnone.
    apply Forall_cons in Hnone as [Hev Hnone]. rewrite Hev in Hfirst.
    by apply IH.
  - by rewrite Hraise in Hfail.
Qed.

(** X6. The script touches the file system in three places only: it
    looks up and lists the output directory, it asks whether
    [model_name_or_path] is a directory, and it opens, for writing, the
    results file in the output directory; what it writes and closes is
    that file. *)
Theorem file_accesses e model_args data_args training_args :
  parse_args_into_dataclasses W e = Ok (model_args, data_args, training_args) →
  let results_file := os_path_join (output_dir training_args) "eval_results_lm.txt" in
  (∀ p r, In (EvPathExists p r) (trace (snd (main W (initial e)))) →
          p = output_dir training_args)
  ∧ (∀ p r, In (EvListdir p r) (trace (snd (main W (initial e)))) →
            p = output_dir training_args)
  ∧ (∀ p r, In (EvPathIsdir p r) (trace (snd (main W (initial e)))) →
            model_name_or_path model_args = Some p)
  ∧ (∀ p mode r, In (EvOpen p mode r) (trace (snd (main W (initial e)))) →
                 p = results_file ∧ mode = "w")
  ∧ (∀ p data r, In (EvWrite p data r) (trace (snd (main W (initial e)))) →
                 p = results_file)
  ∧ (∀ p r, In (EvClose p r) (trace (snd (main W (initial e)))) → p = results_file).
Proof.
  intros Hp results_file. pose proof (main_wiring W _ _ _ _ Hp) as Hall.
  rewrite List.Forall_forall in Hall.
  repeat split; intros; match goal with H : In _ _ |- _ => apply Hall in H end;
    by intuition.
Qed.

(** X7. The logging is configured at INFO when [local_rank] is -1 or 0 and
    at WARN for any other rank, and the random generators are seeded with
    the seed of the training arguments. *)
Theorem logging_level_and_seed e model_args data_args training_args :
  parse_args_into_dataclasses W e = Ok (model_args, data_args, training_args) →
  (∀ level, In (EvBasicConfig level) (trace (snd (main W (initial e)))) →
            (level = INFO ↔ local_rank training_args = -1 ∨ local_rank training_args = 0))
  ∧ (∀ s, In (EvSetSeed s) (trace (snd (main W (initial e)))) →
          s = seed training_args).
Proof.
  intros Hp. pose proof (main_wiring W _ _ _ _ Hp) as Hall.
  rewrite List.Forall_forall in Hall. split.
  - intros level Hin. apply Hall in Hin. cbn beta iota in Hin. subst level.
    destruct (bool_decide (local_rank training_args = -1)) eqn:Hm1.
    { apply bool_decide_eq_true in Hm1. cbn. by intuition. }
    destruct (bool_decide (local_rank training_args = 0)) eqn:H0.
    { apply bool_decide_eq_true in H0. cbn. by intuition. }
    apply bool_decide_eq_false in Hm1, H0. cbn. split; [discriminate|tauto].
  - intros s Hin. exact (Hall _ Hin).
Qed.

(** X8. Training resumes from [model_name_or_path] exactly when that is set
    and [os.path.isdir] answers yes for it; otherwise [trainer.train] gets
    no checkpoint path.  The question is not asked when
    [model_name_or_path] is unset. *)
Theorem resume_path e model_args data_args training_args model_path :
  parse_args_into_dataclasses W e = Ok (model_args, data_args, training_args) →
  first_of train_called (trace (snd (main W (initial e)))) = Some model_path →
  match model_name_or_path model_args with
  | Some p =>
      ∃ isdir,
        first_of isdir_answered (trace (snd (main W (initial e)))) = Some (p, isdir)
        ∧ model_path = (if isdir then Some p else None)
  | None =>
      model_path = None
      ∧ first_of isdir_answered (trace (snd (main W (initial e)))) = None
  end.
Proof.
  intros Hp Hcalled.
  destruct (main_course W _ _ _ _ Hp) as (_ & _ & Hresume & _).
  by rewrite Hcalled in Hresume.
Qed.

End Course.

(** ** The checks and the report *)

Section Checks.
Context {Env : Type} (W : World Env).

Lemma first_of_None_In {A} (f : Event → option A) (ev : Event) (tr : list Event) :
  first_of f tr = None → In ev tr → f ev = None.
Proof.
  induction tr as [|ev' tr IH]; [done|].
  cbn [first_of]. destruct (f ev') eqn:Hev'; [discriminate|].
  intros Hnone [->|Hin]; [exact Hev'|by apply IH].
Qed.


(** X10. When the answer of the evaluation has no "loss", [main] raises
    KeyError('loss') and the results file is neither opened nor written. *)
Theorem missing_loss_is_key_error e model_args data_args training_args d :
  parse_args_into_dataclasses W e = Ok (model_args, data_args, training_args) →
  first_of evaluated (trace (snd (main W (initial e)))) = Some d →
  d !! "loss" = None →
  fst (main W (initial e)) = Raise (KeyError "loss")
  ∧ Forall (λ ev, match ev with
                  | EvOpen _ _ _ | EvWrite _ _ _ => False
                  | _ => True
                  end) (trace (snd (main W (initial e)))).
Proof.
  intros Hp Hd Hloss.
  pose proof (main_outcome W _ _ _ _ _ Hp Hd) as Hout. cbv zeta in Hout.
  by rewrite Hloss in Hout.
Qed.

(** X11. The check on the output directory lets the run pass when the
    directory does not exist (it is then not listed), when it is empty, and
    when training is not requested: the next step configures the logging.
    When listing the directory fails, [main] raises that exception, before
    anything is loaded. *)
Theorem output_dir_check_passes e model_args data_args training_args :
  parse_args_into_dataclasses W e = Ok (model_args, data_args, training_args) →
  do_eval training_args = false ∨ eval_data_file data_args ≠ None →
  (os_path_exists W e (output_dir training_args) = false →
   ∃ level rest,
     trace (snd (main W (initial e)))
     = EvParseArgs (Ok (model_args, data_args, training_args))
         :: EvPathExists (output_dir training_args) false
         :: EvBasicConfig level :: rest)
  ∧ (∀ entries,
       os_path_exists W e (output_dir training_args) = true →
       os_listdir W e (output_dir training_args) = Ok entries →
       entries = [] ∨ do_train training_args = false →
       ∃ level rest,
         trace (snd (main W (initial e)))
         = EvParseArgs (Ok (model_args, data_args, training_args))
             :: EvPathExists (output_dir training_args) true
             :: EvListdir (output_dir training_args) (Ok entries)
             :: EvBasicConfig level :: rest)
  ∧ (∀ ex,
       os_path_exists W e (output_dir training_args) = true →
       os_listdir W e (output_dir training_args) = Raise ex →
       main W (initial e)
       = (Raise ex,
          {| env := e;
             trace := [EvParseArgs (Ok (model_args, data_args, training_args));
                       EvPathExists (output_dir training_args) true;
                       EvListdir (output_dir training_args) (Raise ex)] |})).
Proof.
  intros Hp Hpass.
  destruct (main W (initial e)) as [r st'] eqn:Hrun. cbn [fst snd].
  split; [|split].
  - intros Hexists. start_script Hp Hrun.
    rewrite (eval_check_passes _ _ Hpass), Hexists in Hrun. whnf_script Hrun.
    repeat next_case Hrun; finish_run Hrun r st'; do 2 eexists; reflexivity.
  - intros entries Hexists Hlist Hfree.
    assert (negb (bool_decide (entries = [])) && do_train training_args
            && negb (overwrite_output_dir training_args) = false) as Hclobber.
    { destruct Hfree as [->| ->]; [done|].
      by rewrite andb_false_r. }
    start_script Hp Hrun.
    rewrite (eval_check_passes _ _ Hpass), Hexists, Hlist, Hclobber in Hrun.
    whnf_script Hrun.
    repeat next_case Hrun; finish_run Hrun r st'; do 2 eexists; reflexivity.
  - intros ex Hexists Hlist. start_script Hp Hrun.
    rewrite (eval_check_passes _ _ Hpass), Hexists, Hlist in Hrun.
    by finish_run Hrun r st'.
Qed.

(** The loop of the report, over keys of the mapping, extends the trace by
    calls of the logger and writes to the file; it stops at the first
    write that fails, with the exception of that write. *)
Lemma for_report_trace path (result : gmap string float) keys (st : St Env) :
  let body := λ key : string,
    (v ← dict_get result key;
     logger_info "  %s = %s" [key; str_float W v] ;;
     v ← dict_get result key;
     writer_write W path (key ++ " = " ++ str_float W v ++ newline))%py in
  Forall (λ key, is_Some (result !! key)) keys →
  ∃ mid,
    trace (snd (for_ keys body st)) = (trace st ++ mid)%list
    ∧ Forall (λ ev, match ev with
                    | EvLog _ _ _ => True
                    | EvWrite p _ _ => p = path
                    | _ => False
                    end) mid
    ∧ match fst (for_ keys body st) with
      | Ok _ => Forall (λ ev, event_error ev = None) mid
      | Raise ex => ∃ pre data, mid = (pre ++ [EvWrite path data (Raise ex)])%list
      end.
Proof.
  intros body Hkeys. revert st.
  induction Hkeys as [|k keys [v Hv] _ IH]; intros st.
  { exists []. cbn. rewrite app_nil_r. by repeat split. }
  cbn [for_]. unfold bind.
  destruct (body k st) as [rb st1] eqn:Hbody.
  revert Hbody. unfold body at 1, dict_get. rewrite Hv.
  unfold bind, ret, logger_info, writer_write, extcall_none, extcall, log_event.
  cbn [env trace].
  destruct (file_write W (env st) path _) as [[[]|ex] e'] eqn:Hwrite;
    cbn [returns_none]; intros [= <- <-].
  - destruct (IH {| env := e';
                    trace := (trace st ++ [EvLog INFO "  %s = %s" [k; str_float W v]]) ++
                             [EvWrite path (k ++ " = " ++ str_float W v ++ newline)
                                (Ok tt)] |})
      as (mid & Htrace & Hmid & Hres).
    eexists (EvLog INFO "  %s = %s" [k; str_float W v]
             :: EvWrite path (k ++ " = " ++ str_float W v ++ newline) (Ok tt) :: mid).
    split; [rewrite Htrace; cbn [trace]; by rewrite <- !app_assoc|].
    split; [by repeat constructor|].
    revert Hres. destruct (fst (for_ keys body _)) as [[]|ex]; intros Hres.
    + by repeat constructor.
    + destruct Hres as (pre & data & ->). by eexists (_ :: _ :: pre), data.
  - eexists [EvLog INFO "  %s = %s" [k; str_float W v]; EvWrite path _ (Raise ex)].
    cbn [fst snd trace]. split; [by rewrite <- !app_assoc|].
    split; [by repeat constructor|]. by eexists [_], _.
Qed.

(** X12. The report closes what it opens.  For any mapping of metrics:
    when the file cannot be opened, that exception is raised and nothing
    else happens; otherwise the trace is extended by the opening, calls of
    the logger and writes to that file, and, last, the closing, also when
    a write has failed. *)
Theorem results_file_closed path (result : gmap string float) (st : St Env) :
  (∃ ex,
     fst (write_eval_results W path result st) = Raise ex
     ∧ trace (snd (write_eval_results W path result st))
       = (trace st ++ [EvOpen path "w" (Raise ex)])%list)
  ∨ (∃ mid rc,
       trace (snd (write_eval_results W path result st))
       = (trace st ++ EvOpen path "w" (Ok tt) :: mid ++ [EvClose path rc])%list
       ∧ Forall (λ ev, match ev with
                       | EvLog _ _ _ => True
                       | EvWrite p _ _ => p = path
                       | _ => False
                       end) mid
       ∧ (fst (write_eval_results W path result st) = Ok tt →
          rc = Ok tt ∧ Forall (λ ev, event_error ev = None) mid)).
Proof.
  unfold write_eval_results, with_open_w.
  match goal with
  | |- context [for_ ?keys ?body] =>
      pose proof (for_report_trace path result keys) as Hloop;
      cbv zeta in Hloop; set (loop := for_ keys body) in *
  end.
  unfold bind, extcall_none, extcall, logger_info, log_event.
  cbn [env trace].
  destruct (os_open W (env st) path "w") as [[[]|ex] e1]; cbn [returns_none];
    [|left; by exists ex].
  right.
  match goal with
  | |- context [loop ?st1] =>
      destruct (Hloop st1) as (mid & Htrace & Hmid & Hres);
      [|destruct (loop st1) as [rb st2]]
  end.
  { apply Forall_forall. intros k Hk. by apply sorted_keys_elem in Hk. }
  cbn [fst snd env trace] in *.
  destruct (file_close W (env st2) path) as [rc e3]. cbn [fst snd trace].
  exists (EvLog INFO "***** Eval results *****" [] :: mid), (returns_none rc).
  split.
  { destruct rc as [[]|ex]; cbn [returns_none fst snd trace];
      rewrite Htrace; cbn [trace]; by rewrite <- !app_assoc. }
  split; [by constructor|].
  destruct rc as [[]|ex]; cbn [returns_none fst]; [|discriminate].
  intros ->. split; [done|]. by constructor.
Qed.

End Checks.

(** ** The messages *)

Section Messages.
Context {Env : Type} (W : World Env).

Lemma first_of_Some_In {A} (f : Event → option A) (a : A) (tr : list Event) :
  first_of f tr = Some a → ∃ ev, In ev tr ∧ f ev = Some a.
Proof.
  induction tr as [|ev tr IH]; [discriminate|].
  cbn [first_of]. destruct (f ev) as [a'|] eqn:Hev.
  - intros [= ->]. exists ev. split; [by left|exact Hev].
  - intros Hrest. destruct (IH Hrest) as (ev' & Hin & Hev').
    exists ev'. split; [by right|exact Hev'].
Qed.


End Messages.

(** ** The objects handed on *)

Section Handoff.
Context {Env : Type} (W : World Env).

(** The objects of a run: one tokenizer, the loaded one after the two
    registrations, goes to the data set, the collator and
    [save_pretrained]; the trainer is built from the collator and the data
    set that were built and from the loaded model, resized; and it is the
    trainer that was built which trains and evaluates. *)
Lemma main_handoff e model_args data_args training_args :
  parse_args_into_dataclasses W e = Ok (model_args, data_args, training_args) →
  match first_of tokenizer_loaded (trace (snd (main W (initial e)))) with
  | Some t0 =>
      Forall (λ ev,
                match ev with
                | EvTextDataset tok _ _ _ _ _ | EvSavePretrained tok _ _ =>
                    tok = registered t0
                | EvDataCollator c _ =>
                    c = {| dc_tokenizer := registered t0;
                           dc_mlm := mlm data_args;
                           dc_mlm_probability := mlm_probability data_args;
                           dc_globalize_special_tokens :=
                             globalize_special_tokens data_args |}
                | _ => True
                end)
        (trace (snd (main W (initial e))))
  | None =>
      Forall (λ ev, uses_tokenizer ev = false) (trace (snd (main W (initial e))))
  end
  ∧ match first_of trainer_built (trace (snd (main W (initial e)))) with
    | Some t =>
        first_of collator_built (trace (snd (main W (initial e))))
        = Some (tr_data_collator t)
        ∧ first_of dataset_built (trace (snd (main W (initial e))))
          = Some (tr_train_dataset t)
        ∧ (∃ m0 env',
             first_of model_loaded (trace (snd (main W (initial e)))) = Some m0
             ∧ tr_model t
               = resize_token_embeddings (init_weights W env')
                   (len (dc_tokenizer (tr_data_collator t))) m0)
        ∧ Forall (λ ev,
                    match ev with
                    | EvTrainer t' _ | EvTrain t' _ _ | EvEvaluate t' _ => t' = t
                    | _ => True
                    end)
            (trace (snd (main W (initial e))))
    | None =>
        Forall (λ ev,
                  match ev with
                  | EvTrain _ _ _ | EvEvaluate _ _ => False
                  | _ => True
                  end)
          (trace (snd (main W (initial e))))
    end.
Proof.
  intros Hp. destruct (main W (initial e)) as [r st'] eqn:Hrun. cbn [snd].
  run_script Hp Hrun r st';
    cbv beta iota delta [first_of tokenizer_loaded trainer_built collator_built
                         dataset_built model_loaded];
    (split;
     [|first [idtac; split; [reflexivity|split; [reflexivity|split;
                [do 2 eexists; split; reflexivity|]]] | idtac]]);
    repeat (apply List.Forall_cons; [first [exact I | reflexivity]|]);
    apply List.Forall_nil.
Qed.

End Handoff.

Section Objects.
Context {Env : Type} (W : World Env).

(** The trainer of a trainer event is the one that [first_of] finds. *)
Lemma main_one_trainer e model_args data_args training_args t r :
  parse_args_into_dataclasses W e = Ok (model_args, data_args, training_args) →
  In (EvTrainer t r) (trace (snd (main W (initial e)))) →
  first_of trainer_built (trace (snd (main W (initial e)))) = Some t.
Proof.
  intros Hp Hin. destruct (main_handoff W _ _ _ _ Hp) as [_ Htrainer].
  destruct (first_of trainer_built (trace (snd (main W (initial e)))))
    as [t'|] eqn:Hbuilt.
  - destruct Htrainer as (_ & _ & _ & Hsame).
    rewrite List.Forall_forall in Hsame. by rewrite (Hsame _ Hin).
  - by pose proof (first_of_None_In trainer_built _ _ Hbuilt Hin).
Qed.

(** X4. One tokenizer is handed on.  With [t0] the tokenizer that the
    checkpoint gave, the tokenizer that goes to the data set, to the
    collator, into the trainer (through both) and to [save_pretrained] is
    [t0] after the two registrations, the same in all four places; it has
    both sentinel tokens, marked special; and the model of the trainer has
    as many embedding rows, and the vocabulary size, of that tokenizer.
    In a run that loads no tokenizer none of these calls is made. *)
Theorem sentinels_everywhere e model_args data_args training_args :
  parse_args_into_dataclasses W e = Ok (model_args, data_args, training_args) →
  (∀ t0,
     first_of tokenizer_loaded (trace (snd (main W (initial e)))) = Some t0 →
     has_sentinels (registered t0)
     ∧ (∀ tok split file_path bs rank r,
          In (EvTextDataset tok split file_path bs rank r)
            (trace (snd (main W (initial e)))) →
          tok = registered t0)
     ∧ (∀ c r, In (EvDataCollator c r) (trace (snd (main W (initial e)))) →
               dc_tokenizer c = registered t0)
     ∧ (∀ tok dir r,
          In (EvSavePretrained tok dir r) (trace (snd (main W (initial e)))) →
          tok = registered t0)
     ∧ (∀ t r, In (EvTrainer t r) (trace (snd (main W (initial e)))) →
               dc_tokenizer (tr_data_collator t) = registered t0
               ∧ ds_tokenizer (tr_train_dataset t) = registered t0
               ∧ length (word_embeddings (tr_model t)) = len (registered t0)
               ∧ config_vocab_size (tr_model t) = len (registered t0)))
  ∧ (first_of tokenizer_loaded (trace (snd (main W (initial e)))) = None →
     ∀ ev, In ev (trace (snd (main W (initial e)))) → uses_tokenizer ev = false).
Proof.
  intros Hp. destruct (main_handoff W _ _ _ _ Hp) as [Htok Htrainer].
  pose proof (main_wiring W _ _ _ _ Hp) as Hall.
  rewrite List.Forall_forall in Hall.
  split.
  - intros t0 Hloaded. rewrite Hloaded in Htok.
    rewrite List.Forall_forall in Htok.
    split; [apply has_sentinels_registered|].
    split; [intros tok split file_path bs rank r Hin; exact (Htok _ Hin)|].
    assert (∀ c r, In (EvDataCollator c r) (trace (snd (main W (initial e)))) →
                   dc_tokenizer c = registered t0) as Hcollator.
    { intros c r Hin. by rewrite (Htok _ Hin). }
    split; [exact Hcollator|].
    split; [intros tok dir r Hin; exact (Htok _ Hin)|].
    intros t r Hin.
    rewrite (main_one_trainer _ _ _ _ _ _ Hp Hin) in Htrainer.
    destruct Htrainer as (Hc & _ & _ & _).
    destruct (first_of_Some_In _ _ _ Hc) as (ev & Hev & Hbuilt).
    destruct ev as [| | | | | | | | | | |c' [[]|]| | | | | | | |];
      try discriminate Hbuilt.
    injection Hbuilt as ->.
    destruct (Hall _ Hin) as (_ & _ & _ & Hds & Hrows & Hsize).
    rewrite Hds, Hrows, Hsize, (Hcollator _ _ Hev). by repeat split.
  - intros Hloaded. rewrite Hloaded in Htok.
    by rewrite List.Forall_forall in Htok.
Qed.

(** X5. The wiring of the collator and the trainer.  The collator is built
    with the masking flag, the masking probability and the globalize flag
    of the data arguments.  The trainer is built with the parsed training
    arguments, [prediction_loss_only=True], the collator that was built,
    the data set that was built (the training set, block size 4096) and
    the loaded model, resized to the length of the tokenizer.  The trainer
    that trains and the one that evaluates is the trainer that was
    built. *)
Theorem collator_and_trainer_wiring e model_args data_args training_args :
  parse_args_into_dataclasses W e = Ok (model_args, data_args, training_args) →
  (∀ c r, In (EvDataCollator c r) (trace (snd (main W (initial e)))) →
          dc_mlm c = mlm data_args
          ∧ dc_mlm_probability c = mlm_probability data_args
          ∧ dc_globalize_special_tokens c = globalize_special_tokens data_args)
  ∧ (∀ t r, In (EvTrainer t r) (trace (snd (main W (initial e)))) →
            tr_args t = training_args ∧ tr_prediction_loss_only t = true
            ∧ first_of collator_built (trace (snd (main W (initial e))))
              = Some (tr_data_collator t)
            ∧ first_of dataset_built (trace (snd (main W (initial e))))
              = Some (tr_train_dataset t)
            ∧ ds_split (tr_train_dataset t) = "train"
            ∧ ds_file_path (tr_train_dataset t) = train_data_file data_args
            ∧ ds_block_size (tr_train_dataset t) = 4096
            ∧ ds_local_rank (tr_train_dataset t) = local_rank training_args
            ∧ ∃ m0 env',
                first_of model_loaded (trace (snd (main W (initial e)))) = Some m0
                ∧ tr_model t
                  = resize_token_embeddings (init_weights W env')
                      (len (dc_tokenizer (tr_data_collator t))) m0)
  ∧ (∀ t model_path r, In (EvTrain t model_path r) (trace (snd (main W (initial e)))) →
            first_of trainer_built (trace (snd (main W (initial e)))) = Some t
            ∧ tr_args t = training_args ∧ tr_prediction_loss_only t = true)
  ∧ (∀ t r, In (EvEvaluate t r) (trace (snd (main W (initial e)))) →
            first_of trainer_built (trace (snd (main W (initial e)))) = Some t
            ∧ tr_args t = training_args ∧ tr_prediction_loss_only t = true).
Proof.
  intros Hp. destruct (main_handoff W _ _ _ _ Hp) as [_ Htrainer].
  pose proof (main_wiring W _ _ _ _ Hp) as Hall.
  rewrite List.Forall_forall in Hall.
  pose proof (main_events W _ _ _ _ Hp) as Hevents.
  rewrite List.Forall_forall in Hevents.
  assert (∀ ev t,
            In ev (trace (snd (main W (initial e)))) →
            trainer_trained ev = Some t ∨ trainer_evaluated ev = Some t →
            first_of trainer_built (trace (snd (main W (initial e)))) = Some t)
    as Hused.
  { intros ev t Hin Hev.
    destruct (first_of trainer_built (trace (snd (main W (initial e)))))
      as [t'|] eqn:Hbuilt.
    - destruct Htrainer as (_ & _ & _ & Hsame).
      rewrite List.Forall_forall in Hsame. specialize (Hsame _ Hin).
      destruct ev; destruct Hev as [Hev|Hev]; try discriminate Hev;
        injection Hev as ->; by rewrite Hsame.
    - rewrite List.Forall_forall in Htrainer. specialize (Htrainer _ Hin).
      destruct ev; destruct Hev as [Hev|Hev]; try discriminate Hev; done. }
  split; [|split; [|split]].
  - intros c r Hin. by destruct (Hall _ Hin) as (_ & ? & ? & ?).
  - intros t r Hin. destruct (Hall _ Hin) as (Hargs & Hloss & _).
    rewrite (main_one_trainer _ _ _ _ _ _ Hp Hin) in Htrainer.
    destruct Htrainer as (Hc & Hd & Hm & _).
    split; [exact Hargs|]. split; [exact Hloss|]. split; [exact Hc|].
    split; [exact Hd|].
    destruct (first_of_Some_In _ _ _ Hd) as (ev & Hev & Hbuilt).
    destruct ev as [| | | | | | | | |tok split file_path bs rank [examples|]
                   | | | | | | | | | |]; try discriminate Hbuilt.
    injection Hbuilt as <-. cbn.
    destruct (Hevents _ Hev) as (-> & -> & -> & ->). by repeat split.
  - intros t model_path r Hin. destruct (Hall _ Hin) as (Hargs & Hloss & _).
    split; [|by split]. apply (Hused _ t Hin). by left.
  - intros t r Hin. destruct (Hall _ Hin) as (Hargs & Hloss & _).
    split; [|by split]. apply (Hused _ t Hin). by right.
Qed.

End Objects.

(** * More of the script at work in the simulated world *)

Lemma calls_in_script_order_witness :
  StronglySorted lt
    (stages (trace (snd (main (Sim.world_of (Sim.args "out" true false false) 0)
                           (initial Sim.env0))))).
Proof.
  exact (proj1 (calls_in_script_order (Sim.world_of (Sim.args "out" true false false) 0)
                  Sim.env0 _ _ _ eq_refl)).
Defined.

Lemma failure_stops_run_witness :
  fst (main Scenario.failing_evaluation (initial Sim.env0))
  = Raise (OtherError "RuntimeError" "CUDA out of memory").
Proof.
  destruct (failure_stops_run Scenario.failing_evaluation Sim.env0 _ _ _ eq_refl)
    as [Hfail _].
  destruct (Hfail (OtherError "RuntimeError" "CUDA out of memory") [])
    as [[_ Hraise]|(path & rc & Hrest & _)];
    [vm_compute; reflexivity|exact Hraise|discriminate Hrest].
Defined.

Lemma own_exceptions_witness :
  ∃ ex,
    fst (main (Sim.world_of (Sim.args "old" true false false) 0) (initial Sim.env0))
    = Raise ex
    ∧ (ex = ValueError eval_file_msg
       ∨ ex = ValueError (output_dir_msg "old")
       ∨ ex = KeyError "loss"
       ∨ ex = ValueError "math domain error"
       ∨ ex = OverflowError "math range error").
Proof.
  destruct (fst (main (Sim.world_of (Sim.args "old" true false false) 0)
                   (initial Sim.env0))) as [results|ex] eqn:Hrun;
    [vm_compute in Hrun; discriminate Hrun|].
  exists ex. split; [reflexivity|].
  apply (own_exceptions (Sim.world_of (Sim.args "old" true false false) 0)
           Sim.env0 _ _ _ ex eq_refl Hrun).
  apply first_failure_None. vm_compute. reflexivity.
Defined.

Lemma sentinels_everywhere_witness :
  ∃ dir,
    first_of saved
      (trace (snd (main (Sim.world_of (Sim.args "out" true false false) 0)
                     (initial Sim.env0))))
    = Some (registered Sim.checkpoint_tokenizer, dir)
    ∧ has_sentinels (registered Sim.checkpoint_tokenizer).
Proof.
  destruct (sentinels_everywhere (Sim.world_of (Sim.args "out" true false false) 0)
              Sim.env0 _ _ _ eq_refl) as [Hhanded _].
  destruct (Hhanded Sim.checkpoint_tokenizer) as (Hsentinels & _ & _ & Hsave & _);
    [vm_compute; reflexivity|].
  destruct (first_of saved
              (trace (snd (main (Sim.world_of (Sim.args "out" true false false) 0)
                             (initial Sim.env0))))) as [[tok dir]|] eqn:Hsaved;
    [|vm_compute in Hsaved; discriminate Hsaved].
  exists dir. split; [|exact Hsentinels].
  destruct (first_of_Some_In _ _ _ Hsaved) as (ev & Hin & Hev).
  destruct ev; try discriminate Hev. injection Hev as -> ->.
  by rewrite (Hsave _ _ _ Hin).
Defined.

Lemma collator_and_trainer_wiring_witness :
  ∃ t,
    first_of trainer_built
      (trace (snd (main (Sim.world_of (Sim.args "out" true false false) 0)
                     (initial Sim.env0))))
    = Some t
    ∧ first_of trainer_trained
        (trace (snd (main (Sim.world_of (Sim.args "out" true false false) 0)
                       (initial Sim.env0))))
      = Some t
    ∧ first_of trainer_evaluated
        (trace (snd (main (Sim.world_of (Sim.args "out" true false false) 0)
                       (initial Sim.env0))))
      = Some t
    ∧ first_of collator_built
        (trace (snd (main (Sim.world_of (Sim.args "out" true false false) 0)
                       (initial Sim.env0))))
      = Some (tr_data_collator t)
    ∧ first_of dataset_built
        (trace (snd (main (Sim.world_of (Sim.args "out" true false false) 0)
                       (initial Sim.env0))))
      = Some (tr_train_dataset t)
    ∧ tr_args t = Sim.training_args "out" true false false
    ∧ tr_prediction_loss_only t = true.
Proof.
  destruct (collator_and_trainer_wiring
              (Sim.world_of (Sim.args "out" true false false) 0)
              Sim.env0 _ _ _ eq_refl) as (_ & Hbuilt & Htrained & Hevaluated).
  destruct (first_of trainer_trained
              (trace (snd (main (Sim.world_of (Sim.args "out" true false false) 0)
                             (initial Sim.env0))))) as [t|] eqn:Ht;
    [|vm_compute in Ht; discriminate Ht].
  destruct (first_of_Some_In _ _ _ Ht) as (ev & Hin & Hev).
  destruct ev; try discriminate Hev. injection Hev as ->.
  destruct (Htrained _ _ _ Hin) as (Hsame & Hargs & Hloss).
  destruct (first_of trainer_evaluated
              (trace (snd (main (Sim.world_of (Sim.args "out" true false false) 0)
                             (initial Sim.env0))))) as [t'|] eqn:Ht';
    [|vm_compute in Ht'; discriminate Ht'].
  destruct (first_of_Some_In _ _ _ Ht') as (ev & Hin' & Hev').
  destruct ev; try discriminate Hev'. injection Hev' as ->.
  destruct (Hevaluated _ _ Hin') as (Hsame' & _).
  exists t. split; [exact Hsame|]. split; [reflexivity|].
  split; [congruence|].
  destruct (first_of_Some_In _ _ _ Hsame) as (ev & Hin'' & Hev'').
  destruct ev; try discriminate Hev''. injection Hev'' as ->.
  destruct (Hbuilt _ _ Hin'') as (_ & _ & Hc & Hd & _).
  by repeat split.
Defined.

Lemma file_accesses_witness :
  ∃ path mode,
    first_of opened
      (trace (snd (main (Sim.world_of (Sim.args "out" true false false) 0)
                     (initial Sim.env0))))
    = Some (path, mode)
    ∧ path = "out/eval_results_lm.txt" ∧ mode = "w".
Proof.
  destruct (first_of opened
              (trace (snd (main (Sim.world_of (Sim.args "out" true false false) 0)
                             (initial Sim.env0))))) as [[path mode]|] eqn:Hopen;
    [|vm_compute in Hopen; discriminate Hopen].
  exists path, mode. split; [reflexivity|].
  destruct (first_of_Some_In _ _ _ Hopen) as (ev & Hin & Hev).
  destruct ev; try discriminate Hev. injection Hev as -> ->.
  destruct (file_accesses (Sim.world_of (Sim.args "out" true false false) 0)
              Sim.env0 _ _ _ eq_refl) as (_ & _ & _ & Hopened & _).
  exact (Hopened _ _ _ Hin).
Defined.

Lemma logging_level_and_seed_witness :
  ∃ level,
    first_of logging_configured
      (trace (snd (main (Sim.world_of (Sim.args "out" true false false) 0)
                     (initial Sim.env0))))
    = Some level
    ∧ level = INFO.
Proof.
  destruct (first_of logging_configured
              (trace (snd (main (Sim.world_of (Sim.args "out" true false false) 0)
                             (initial Sim.env0))))) as [level|] eqn:Hlevel;
    [|vm_compute in Hlevel; discriminate Hlevel].
  exists level. split; [reflexivity|].
  destruct (first_of_Some_In _ _ _ Hlevel) as (ev & Hin & Hev).
  destruct ev; try discriminate Hev. injection Hev as ->.
  destruct (logging_level_and_seed (Sim.world_of (Sim.args "out" true false false) 0)
              Sim.env0 _ _ _ eq_refl) as [Hconfig _].
  apply (Hconfig _ Hin). left. reflexivity.
Defined.

Lemma resume_path_witness :
  first_of train_called
    (trace (snd (main (Sim.world (Ok Scenario.resuming_args) (Ok {[ "loss" := 0%float ]}))
                   (initial Sim.env0))))
  = Some (Some "old").
Proof.
  destruct (first_of train_called
              (trace (snd (main (Sim.world (Ok Scenario.resuming_args)
                                   (Ok {[ "loss" := 0%float ]}))
                             (initial Sim.env0))))) as [model_path|] eqn:Hcalled;
    [|vm_compute in Hcalled; discriminate Hcalled].
  destruct (resume_path (Sim.world (Ok Scenario.resuming_args)
                           (Ok {[ "loss" := 0%float ]}))
              Sim.env0 _ _ _ model_path eq_refl Hcalled) as (isdir & Hisdir & ->).
  vm_compute in Hisdir. injection Hisdir as <-. reflexivity.
Defined.


Lemma missing_loss_is_key_error_witness :
  fst (main Scenario.no_loss (initial Sim.env0)) = Raise (KeyError "loss").
Proof.
  destruct (missing_loss_is_key_error Scenario.no_loss Sim.env0 _ _ _ ∅ eq_refl)
    as [Hraise _]; [vm_compute; reflexivity|vm_compute; reflexivity|].
  exact Hraise.
Defined.

Lemma output_dir_check_passes_witness :
  (∃ level rest,
     trace (snd (main (Sim.world_of (Sim.args "new" true false false) 0)
                   (initial Sim.env0)))
     = EvParseArgs (Ok (Sim.args "new" true false false))
         :: EvPathExists "new" false :: EvBasicConfig level :: rest)
  ∧ (∃ level rest,
       trace (snd (main (Sim.world_of (Sim.args "old" false false false) 0)
                     (initial Sim.env0)))
       = EvParseArgs (Ok (Sim.args "old" false false false))
           :: EvPathExists "old" true :: EvListdir "old" (Ok ["checkpoint-500"])
           :: EvBasicConfig level :: rest).
Proof.
  split.
  - destruct (output_dir_check_passes (Sim.world_of (Sim.args "new" true false false) 0)
                Sim.env0 _ _ _ eq_refl) as [Hmissing _]; [by left|].
    apply Hmissing. vm_compute. reflexivity.
  - destruct (output_dir_check_passes (Sim.world_of (Sim.args "old" false false false) 0)
                Sim.env0 _ _ _ eq_refl) as (_ & Hfree & _); [by left|].
    apply Hfree; [vm_compute; reflexivity|vm_compute; reflexivity|by right].
Defined.

